(** * Verification of the KubeVirt pieces of the installer

    Three Go sources are embedded here:
    - [pkg/types/kubevirt/validation/machinepool.go] ([ValidateMachinePool]),
    - the generated bindings for [google/bigtable/admin/v2/common.proto]
      (the nil-safe getters of [OperationProgress]),
    - the infra-cluster client wrapper of package [kubevirt]
      ([LoadKubeConfigContent], [deleteResource], [getResource],
      [listResource] and the exported wrappers around them).

    Go maps are [gmap]s, Go slices are lists (the nil slice is the empty
    list), a Go [error] value is an [option error] ([None] is [nil]), and
    calls into the cluster are state transformers over an abstract world. *)

From Stdlib Require Import ZArith Lia Ascii String.
From stdpp Require Import base option list strings gmap fin_maps.

Local Open Scope string_scope.
Local Open Scope Z_scope.
Local Open Scope list_scope.

(** ** Go values shared by the three packages *)

Module Go.

(** Reasons carried by the status errors of the Kubernetes API machinery. *)
Inductive StatusReason :=
| StatusReasonUnknown
| StatusReasonUnauthorized
| StatusReasonForbidden
| StatusReasonNotFound
| StatusReasonConflict
| StatusReasonTimeout
| StatusReasonInternalError
| StatusReasonServiceUnavailable.

(** The dynamic types behind Go's [error] interface that this code meets. *)
Inductive error :=
| errorString (msg : string)                          (* errors.New, fmt.Errorf *)
| StatusError (reason : StatusReason) (msg : string)  (* apierrors.StatusError *)
| PathError (op path msg : string).                   (* os.PathError *)

#[global] Instance StatusReason_eq_dec : EqDecision StatusReason.
Proof. solve_decision. Defined.

#[global] Instance error_eq_dec : EqDecision error.
Proof. solve_decision. Defined.

(** [apierrors.IsNotFound]. *)
Definition IsNotFound (e : error) : bool :=
  match e with
  | StatusError StatusReasonNotFound _ => true
  | _ => false
  end.

(** Go's [int] on the 64-bit platforms the installer is built for. *)
Definition int_min : Z := - 2 ^ 63.
Definition int_max : Z := 2 ^ 63 - 1.

Definition wrap_int (z : Z) : Z := (z + 2 ^ 63) mod 2 ^ 64 - 2 ^ 63.

Definition int_add (a b : Z) : Z := wrap_int (a + b).

(** [time.Duration] counts nanoseconds. *)
Definition Nanosecond : Z := 1.
Definition Second : Z := 1000000000 * Nanosecond.

(** Result of running a loop with a step budget. *)
Inductive fueled (A : Type) :=
| Returned (a : A)
| OutOfFuel.
Arguments Returned {A} a.
Arguments OutOfFuel {A}.

End Go.

Import Go.

(** ** pkg/types/kubevirt/validation *)

Module validation.

(** [kubevirt.MachinePool]; the struct is declared in package [kubevirt],
    with a CPU count and two quantity strings. *)
Record MachinePool := {
  CPU : Z;
  Memory : string;
  StorageSize : string
}.

(** [*field.Path]: a chain of names up to the nil parent; [Child] hangs a
    name under a path, and a root is a child of nil. *)
Inductive Path :=
| nilPath
| Child (parent : Path) (name : string).

(** [field.NewPath]. *)
Definition NewPath (name : string) : Path := Child nilPath name.

(** The offending value stored in a [field.Error] (an [interface{}]). *)
Inductive BadValue :=
| BadInt (z : Z)
| BadString (s : string).

Inductive ErrorType :=
| ErrorTypeNotFound
| ErrorTypeRequired
| ErrorTypeDuplicate
| ErrorTypeInvalid
| ErrorTypeNotSupported
| ErrorTypeForbidden.

(** [field.Error]. *)
Record FieldError := {
  Type_ : ErrorType;
  Field : Path;
  Value : BadValue;
  Detail : string
}.

(** [field.Invalid]. *)
Definition Invalid (p : Path) (v : BadValue) (detail : string) : FieldError :=
  {| Type_ := ErrorTypeInvalid; Field := p; Value := v; Detail := detail |}.

Definition ErrorList := list FieldError.

Section WithQuantity.

(** [resource.Quantity], [resource.ParseQuantity] and [Quantity.Sign]
    belong to the Kubernetes API machinery; the validation is
    verified for every parser. *)
Context {Quantity : Type}.
Variable ParseQuantity : string -> Quantity + error.
Variable Sign : Quantity -> Z.

(** The pool is the struct behind the pointer the Go function receives. *)
Definition ValidateMachinePool (p : MachinePool) (fldPath : Path) : ErrorList :=
  let allErrs := [] in
  let allErrs :=
    if bool_decide (CPU p <= 0)
    then allErrs ++ [Invalid (Child fldPath "cpu") (BadInt (CPU p)) "CPU must be positive"]
    else allErrs in
  let allErrs :=
    match ParseQuantity (StorageSize p) with
    | inr _ =>
        allErrs ++ [Invalid (Child fldPath "storage") (BadString (StorageSize p))
                      "Storage size must be of Quantity type format"]
    | inl storageQuantity =>
        if bool_decide (Sign storageQuantity <> 1)
        then allErrs ++ [Invalid (Child fldPath "storage") (BadString (StorageSize p))
                           "Storage size must be positive value"]
        else allErrs
    end in
  let allErrs :=
    match ParseQuantity (Memory p) with
    | inr _ =>
        allErrs ++ [Invalid (Child fldPath "memory") (BadString (Memory p))
                      "Memory must be of Quantity type format"]
    | inl memoryQuantity =>
        if bool_decide (Sign memoryQuantity <> 1)
        then allErrs ++ [Invalid (Child fldPath "memory") (BadString (Memory p))
                           "Memory must be positive value"]
        else allErrs
    end in
  allErrs.

(** *** What the checks mean, field by field *)

Inductive PoolField := FieldCPU | FieldStorage | FieldMemory.

Definition field_name (f : PoolField) : string :=
  match f with
  | FieldCPU => "cpu"
  | FieldStorage => "storage"
  | FieldMemory => "memory"
  end.

(** A quantity string is fine when it parses and the parsed quantity is
    positive. *)
Definition positive_quantity (s : string) : Prop :=
  exists q, ParseQuantity s = inl q /\ Sign q = 1.

#[global] Instance positive_quantity_dec s : Decision (positive_quantity s).
Proof.
  unfold positive_quantity.
  destruct (ParseQuantity s) as [q|e].
  - destruct (decide (Sign q = 1)) as [H|H].
    + left. eauto.
    + right. intros (q' & Hq & Hs). congruence.
  - right. intros (q' & Hq & _). discriminate.
Defined.

Definition field_invalid (p : MachinePool) (f : PoolField) : Prop :=
  match f with
  | FieldCPU => CPU p <= 0
  | FieldStorage => ~ positive_quantity (StorageSize p)
  | FieldMemory => ~ positive_quantity (Memory p)
  end.

#[global] Instance field_invalid_dec p f : Decision (field_invalid p f).
Proof. destruct f; simpl; apply _. Defined.

(** The fields in the order the function visits them. *)
Definition pool_fields : list PoolField := [FieldCPU; FieldStorage; FieldMemory].

Definition invalid_fields (p : MachinePool) : list PoolField :=
  filter (field_invalid p) pool_fields.

End WithQuantity.

End validation.


(** ** Generated bindings for google/bigtable/admin/v2/common.proto *)

Module admin.

(** [timestamppb.Timestamp]. *)
Record Timestamp := {
  Seconds : Z;
  Nanos : Z
}.

(** A Go pointer: [None] is [nil], [Some l] is the address [l]. *)
Definition pointer := option positive.

(** The exported fields of the message; the three leading fields of the Go
    struct ([state], [sizeCache], [unknownFields]) are runtime book-keeping
    that the getters never read. *)
Record OperationProgress := {
  ProgressPercent : Z;
  StartTime : pointer;
  EndTime : pointer
}.

(** The messages that live in memory, by address. *)
Definition Heap := gmap positive OperationProgress.

(** Reading through a pointer; [None] is the nil-dereference panic. *)
Definition deref (h : Heap) (x : pointer) : option OperationProgress :=
  match x with
  | Some l => h !! l
  | None => None
  end.

Definition GetProgressPercent (h : Heap) (x : pointer) : option Z :=
  if bool_decide (x <> None)
  then ProgressPercent <$> deref h x
  else Some 0.

Definition GetStartTime (h : Heap) (x : pointer) : option pointer :=
  if bool_decide (x <> None)
  then StartTime <$> deref h x
  else Some None.

Definition GetEndTime (h : Heap) (x : pointer) : option pointer :=
  if bool_decide (x <> None)
  then EndTime <$> deref h x
  else Some None.

(** *** The enum [StorageType] *)

Definition StorageType := Z.

Definition StorageType_STORAGE_TYPE_UNSPECIFIED : StorageType := 0.
Definition StorageType_SSD : StorageType := 1.
Definition StorageType_HDD : StorageType := 2.

Definition StorageType_name : gmap Z string :=
  {[ 0 := "STORAGE_TYPE_UNSPECIFIED"; 1 := "SSD"; 2 := "HDD" ]}.

Definition StorageType_value : gmap string Z :=
  {[ "STORAGE_TYPE_UNSPECIFIED" := 0; "SSD" := 1; "HDD" := 2 ]}.

(** *** The package-level state of the generated file *)

(** The three entries of [file_google_bigtable_admin_v2_common_proto_goTypes]. *)
Inductive GoType :=
| GoStorageType
| GoOperationProgressPtr
| GoTimestampPtr.

(** The unexported fields of the message struct. *)
Inductive InternalField :=
| field_state
| field_sizeCache
| field_unknownFields.

(** The exporter [init] installs on the message type: the address of an
    internal field of the message behind [v], nil for any other index; the
    outer [None] is the panic of reaching a field through nil. *)
Definition OperationProgress_Exporter (v : pointer) (i : Z)
  : option (option (positive * InternalField)) :=
  let address f :=
    match v with
    | Some l => Some (Some (l, f))
    | None => None
    end in
  if bool_decide (i = 0) then address field_state
  else if bool_decide (i = 1) then address field_sizeCache
  else if bool_decide (i = 2) then address field_unknownFields
  else Some None.

(** The raw descriptor, as the generated file spells it out. *)
Definition rawDesc_bytes : list Byte.byte :=
  [Byte.x0a; Byte.x25; Byte.x67; Byte.x6f; Byte.x6f; Byte.x67; Byte.x6c; Byte.x65;
   Byte.x2f; Byte.x62; Byte.x69; Byte.x67; Byte.x74; Byte.x61; Byte.x62; Byte.x6c;
   Byte.x65; Byte.x2f; Byte.x61; Byte.x64; Byte.x6d; Byte.x69; Byte.x6e; Byte.x2f;
   Byte.x76; Byte.x32; Byte.x2f; Byte.x63; Byte.x6f; Byte.x6d; Byte.x6d; Byte.x6f;
   Byte.x6e; Byte.x2e; Byte.x70; Byte.x72; Byte.x6f; Byte.x74; Byte.x6f; Byte.x12;
   Byte.x18; Byte.x67; Byte.x6f; Byte.x6f; Byte.x67; Byte.x6c; Byte.x65; Byte.x2e;
   Byte.x62; Byte.x69; Byte.x67; Byte.x74; Byte.x61; Byte.x62; Byte.x6c; Byte.x65;
   Byte.x2e; Byte.x61; Byte.x64; Byte.x6d; Byte.x69; Byte.x6e; Byte.x2e; Byte.x76;
   Byte.x32; Byte.x1a; Byte.x1f; Byte.x67; Byte.x6f; Byte.x6f; Byte.x67; Byte.x6c;
   Byte.x65; Byte.x2f; Byte.x70; Byte.x72; Byte.x6f; Byte.x74; Byte.x6f; Byte.x62;
   Byte.x75; Byte.x66; Byte.x2f; Byte.x74; Byte.x69; Byte.x6d; Byte.x65; Byte.x73;
   Byte.x74; Byte.x61; Byte.x6d; Byte.x70; Byte.x2e; Byte.x70; Byte.x72; Byte.x6f;
   Byte.x74; Byte.x6f; Byte.x22; Byte.xb0; Byte.x01; Byte.x0a; Byte.x11; Byte.x4f;
   Byte.x70; Byte.x65; Byte.x72; Byte.x61; Byte.x74; Byte.x69; Byte.x6f; Byte.x6e;
   Byte.x50; Byte.x72; Byte.x6f; Byte.x67; Byte.x72; Byte.x65; Byte.x73; Byte.x73;
   Byte.x12; Byte.x29; Byte.x0a; Byte.x10; Byte.x70; Byte.x72; Byte.x6f; Byte.x67;
   Byte.x72; Byte.x65; Byte.x73; Byte.x73; Byte.x5f; Byte.x70; Byte.x65; Byte.x72;
   Byte.x63; Byte.x65; Byte.x6e; Byte.x74; Byte.x18; Byte.x01; Byte.x20; Byte.x01;
   Byte.x28; Byte.x05; Byte.x52; Byte.x0f; Byte.x70; Byte.x72; Byte.x6f; Byte.x67;
   Byte.x72; Byte.x65; Byte.x73; Byte.x73; Byte.x50; Byte.x65; Byte.x72; Byte.x63;
   Byte.x65; Byte.x6e; Byte.x74; Byte.x12; Byte.x39; Byte.x0a; Byte.x0a; Byte.x73;
   Byte.x74; Byte.x61; Byte.x72; Byte.x74; Byte.x5f; Byte.x74; Byte.x69; Byte.x6d;
   Byte.x65; Byte.x18; Byte.x02; Byte.x20; Byte.x01; Byte.x28; Byte.x0b; Byte.x32;
   Byte.x1a; Byte.x2e; Byte.x67; Byte.x6f; Byte.x6f; Byte.x67; Byte.x6c; Byte.x65;
   Byte.x2e; Byte.x70; Byte.x72; Byte.x6f; Byte.x74; Byte.x6f; Byte.x62; Byte.x75;
   Byte.x66; Byte.x2e; Byte.x54; Byte.x69; Byte.x6d; Byte.x65; Byte.x73; Byte.x74;
   Byte.x61; Byte.x6d; Byte.x70; Byte.x52; Byte.x09; Byte.x73; Byte.x74; Byte.x61;
   Byte.x72; Byte.x74; Byte.x54; Byte.x69; Byte.x6d; Byte.x65; Byte.x12; Byte.x35;
   Byte.x0a; Byte.x08; Byte.x65; Byte.x6e; Byte.x64; Byte.x5f; Byte.x74; Byte.x69;
   Byte.x6d; Byte.x65; Byte.x18; Byte.x03; Byte.x20; Byte.x01; Byte.x28; Byte.x0b;
   Byte.x32; Byte.x1a; Byte.x2e; Byte.x67; Byte.x6f; Byte.x6f; Byte.x67; Byte.x6c;
   Byte.x65; Byte.x2e; Byte.x70; Byte.x72; Byte.x6f; Byte.x74; Byte.x6f; Byte.x62;
   Byte.x75; Byte.x66; Byte.x2e; Byte.x54; Byte.x69; Byte.x6d; Byte.x65; Byte.x73;
   Byte.x74; Byte.x61; Byte.x6d; Byte.x70; Byte.x52; Byte.x07; Byte.x65; Byte.x6e;
   Byte.x64; Byte.x54; Byte.x69; Byte.x6d; Byte.x65; Byte.x2a; Byte.x3d; Byte.x0a;
   Byte.x0b; Byte.x53; Byte.x74; Byte.x6f; Byte.x72; Byte.x61; Byte.x67; Byte.x65;
   Byte.x54; Byte.x79; Byte.x70; Byte.x65; Byte.x12; Byte.x1c; Byte.x0a; Byte.x18;
   Byte.x53; Byte.x54; Byte.x4f; Byte.x52; Byte.x41; Byte.x47; Byte.x45; Byte.x5f;
   Byte.x54; Byte.x59; Byte.x50; Byte.x45; Byte.x5f; Byte.x55; Byte.x4e; Byte.x53;
   Byte.x50; Byte.x45; Byte.x43; Byte.x49; Byte.x46; Byte.x49; Byte.x45; Byte.x44;
   Byte.x10; Byte.x00; Byte.x12; Byte.x07; Byte.x0a; Byte.x03; Byte.x53; Byte.x53;
   Byte.x44; Byte.x10; Byte.x01; Byte.x12; Byte.x07; Byte.x0a; Byte.x03; Byte.x48;
   Byte.x44; Byte.x44; Byte.x10; Byte.x02; Byte.x42; Byte.xd3; Byte.x01; Byte.x0a;
   Byte.x1c; Byte.x63; Byte.x6f; Byte.x6d; Byte.x2e; Byte.x67; Byte.x6f; Byte.x6f;
   Byte.x67; Byte.x6c; Byte.x65; Byte.x2e; Byte.x62; Byte.x69; Byte.x67; Byte.x74;
   Byte.x61; Byte.x62; Byte.x6c; Byte.x65; Byte.x2e; Byte.x61; Byte.x64; Byte.x6d;
   Byte.x69; Byte.x6e; Byte.x2e; Byte.x76; Byte.x32; Byte.x42; Byte.x0b; Byte.x43;
   Byte.x6f; Byte.x6d; Byte.x6d; Byte.x6f; Byte.x6e; Byte.x50; Byte.x72; Byte.x6f;
   Byte.x74; Byte.x6f; Byte.x50; Byte.x01; Byte.x5a; Byte.x3d; Byte.x67; Byte.x6f;
   Byte.x6f; Byte.x67; Byte.x6c; Byte.x65; Byte.x2e; Byte.x67; Byte.x6f; Byte.x6c;
   Byte.x61; Byte.x6e; Byte.x67; Byte.x2e; Byte.x6f; Byte.x72; Byte.x67; Byte.x2f;
   Byte.x67; Byte.x65; Byte.x6e; Byte.x70; Byte.x72; Byte.x6f; Byte.x74; Byte.x6f;
   Byte.x2f; Byte.x67; Byte.x6f; Byte.x6f; Byte.x67; Byte.x6c; Byte.x65; Byte.x61;
   Byte.x70; Byte.x69; Byte.x73; Byte.x2f; Byte.x62; Byte.x69; Byte.x67; Byte.x74;
   Byte.x61; Byte.x62; Byte.x6c; Byte.x65; Byte.x2f; Byte.x61; Byte.x64; Byte.x6d;
   Byte.x69; Byte.x6e; Byte.x2f; Byte.x76; Byte.x32; Byte.x3b; Byte.x61; Byte.x64;
   Byte.x6d; Byte.x69; Byte.x6e; Byte.xaa; Byte.x02; Byte.x1e; Byte.x47; Byte.x6f;
   Byte.x6f; Byte.x67; Byte.x6c; Byte.x65; Byte.x2e; Byte.x43; Byte.x6c; Byte.x6f;
   Byte.x75; Byte.x64; Byte.x2e; Byte.x42; Byte.x69; Byte.x67; Byte.x74; Byte.x61;
   Byte.x62; Byte.x6c; Byte.x65; Byte.x2e; Byte.x41; Byte.x64; Byte.x6d; Byte.x69;
   Byte.x6e; Byte.x2e; Byte.x56; Byte.x32; Byte.xca; Byte.x02; Byte.x1e; Byte.x47;
   Byte.x6f; Byte.x6f; Byte.x67; Byte.x6c; Byte.x65; Byte.x5c; Byte.x43; Byte.x6c;
   Byte.x6f; Byte.x75; Byte.x64; Byte.x5c; Byte.x42; Byte.x69; Byte.x67; Byte.x74;
   Byte.x61; Byte.x62; Byte.x6c; Byte.x65; Byte.x5c; Byte.x41; Byte.x64; Byte.x6d;
   Byte.x69; Byte.x6e; Byte.x5c; Byte.x56; Byte.x32; Byte.xea; Byte.x02; Byte.x22;
   Byte.x47; Byte.x6f; Byte.x6f; Byte.x67; Byte.x6c; Byte.x65; Byte.x3a; Byte.x3a;
   Byte.x43; Byte.x6c; Byte.x6f; Byte.x75; Byte.x64; Byte.x3a; Byte.x3a; Byte.x42;
   Byte.x69; Byte.x67; Byte.x74; Byte.x61; Byte.x62; Byte.x6c; Byte.x65; Byte.x3a;
   Byte.x3a; Byte.x41; Byte.x64; Byte.x6d; Byte.x69; Byte.x6e; Byte.x3a; Byte.x3a;
   Byte.x56; Byte.x32; Byte.x62; Byte.x06; Byte.x70; Byte.x72; Byte.x6f; Byte.x74;
   Byte.x6f; Byte.x33].

Section Runtime.

(** What the protobuf runtime brings: its descriptor and info types, the
    flag [protoimpl.UnsafeEnabled], [protoimpl.X.CompressGZIP], the import
    path of this package and [TypeBuilder.Build]. *)
Context {FileDescriptor EnumInfo MessageInfoData : Type}.

(** [protoimpl.MessageInfo]: the exporter field [init] may set, and the
    rest. *)
Record MessageInfo := {
  Exporter : option (pointer -> Z -> option (option (positive * InternalField)));
  info : MessageInfoData
}.

Record DescBuilder := {
  GoPackagePath : string;
  RawDescriptor : list Byte.byte;
  NumEnums : Z;
  NumMessages : Z;
  NumExtensions : Z;
  NumServices : Z
}.

Record TypeBuilder := {
  File : DescBuilder;
  GoTypes : list GoType;
  DependencyIndexes : list Z;
  EnumInfos : list EnumInfo;
  MessageInfos : list MessageInfo
}.

(** What [Build] leaves: the file descriptor it returns, and the contents
    of the two info slices it was handed and fills in place. *)
Record Built := {
  out_File : FileDescriptor;
  built_EnumInfos : list EnumInfo;
  built_MessageInfos : list MessageInfo
}.

Variable UnsafeEnabled : bool.
Variable CompressGZIP : list Byte.byte -> list Byte.byte.
Variable PkgPath : string.
Variable Build : TypeBuilder -> Built.
Variable zeroEnumInfo : EnumInfo.
Variable zeroMessageInfoData : MessageInfoData.

Record PackageState := {
  File_google_bigtable_admin_v2_common_proto : option FileDescriptor;
  file_google_bigtable_admin_v2_common_proto_rawDesc : list Byte.byte;
  file_google_bigtable_admin_v2_common_proto_rawDescOnce : bool;
  file_google_bigtable_admin_v2_common_proto_rawDescData : list Byte.byte;
  file_google_bigtable_admin_v2_common_proto_enumTypes : list EnumInfo;
  file_google_bigtable_admin_v2_common_proto_msgTypes : list MessageInfo;
  file_google_bigtable_admin_v2_common_proto_goTypes : list GoType;
  file_google_bigtable_admin_v2_common_proto_depIdxs : list Z
}.

(** The variables as their declarations initialise them, before any
    [init] function runs. *)
Definition package_vars : PackageState :=
  {| File_google_bigtable_admin_v2_common_proto := None;
     file_google_bigtable_admin_v2_common_proto_rawDesc := rawDesc_bytes;
     file_google_bigtable_admin_v2_common_proto_rawDescOnce := false;
     file_google_bigtable_admin_v2_common_proto_rawDescData := rawDesc_bytes;
     file_google_bigtable_admin_v2_common_proto_enumTypes := [zeroEnumInfo];
     file_google_bigtable_admin_v2_common_proto_msgTypes :=
       [{| Exporter := None; info := zeroMessageInfoData |}];
     file_google_bigtable_admin_v2_common_proto_goTypes :=
       [GoStorageType; GoOperationProgressPtr; GoTimestampPtr];
     file_google_bigtable_admin_v2_common_proto_depIdxs := [2; 2; 2; 2; 2; 2; 0] |}.

(** [rawDescOnce.Do] runs the compression the first time only. *)
Definition file_google_bigtable_admin_v2_common_proto_rawDescGZIP (st : PackageState)
  : list Byte.byte * PackageState :=
  let st :=
    if file_google_bigtable_admin_v2_common_proto_rawDescOnce st
    then st
    else
      {| File_google_bigtable_admin_v2_common_proto :=
           File_google_bigtable_admin_v2_common_proto st;
         file_google_bigtable_admin_v2_common_proto_rawDesc :=
           file_google_bigtable_admin_v2_common_proto_rawDesc st;
         file_google_bigtable_admin_v2_common_proto_rawDescOnce := true;
         file_google_bigtable_admin_v2_common_proto_rawDescData :=
           CompressGZIP (file_google_bigtable_admin_v2_common_proto_rawDescData st);
         file_google_bigtable_admin_v2_common_proto_enumTypes :=
           file_google_bigtable_admin_v2_common_proto_enumTypes st;
         file_google_bigtable_admin_v2_common_proto_msgTypes :=
           file_google_bigtable_admin_v2_common_proto_msgTypes st;
         file_google_bigtable_admin_v2_common_proto_goTypes :=
           file_google_bigtable_admin_v2_common_proto_goTypes st;
         file_google_bigtable_admin_v2_common_proto_depIdxs :=
           file_google_bigtable_admin_v2_common_proto_depIdxs st |} in
  (file_google_bigtable_admin_v2_common_proto_rawDescData st, st).

(** [StorageType.EnumDescriptor] and [OperationProgress.Descriptor]. *)
Definition EnumDescriptor (st : PackageState) : (list Byte.byte * list Z) * PackageState :=
  let '(b, st) := file_google_bigtable_admin_v2_common_proto_rawDescGZIP st in
  ((b, [0]), st).

Definition Descriptor (st : PackageState) : (list Byte.byte * list Z) * PackageState :=
  let '(b, st) := file_google_bigtable_admin_v2_common_proto_rawDescGZIP st in
  ((b, [0]), st).

(** [file_google_bigtable_admin_v2_common_proto_init]; [None] is the panic
    of indexing an empty [msgTypes]. *)
Definition file_google_bigtable_admin_v2_common_proto_init (st : PackageState)
  : option PackageState :=
  match File_google_bigtable_admin_v2_common_proto st with
  | Some _ => Some st
  | None =>
      msgTypes ←
        (if negb UnsafeEnabled
         then
           match file_google_bigtable_admin_v2_common_proto_msgTypes st with
           | mi :: rest =>
               Some ({| Exporter := Some OperationProgress_Exporter; info := info mi |}
                       :: rest)
           | [] => None
           end
         else Some (file_google_bigtable_admin_v2_common_proto_msgTypes st));
      let out :=
        Build {| File := {| GoPackagePath := PkgPath;
                            RawDescriptor :=
                              file_google_bigtable_admin_v2_common_proto_rawDesc st;
                            NumEnums := 1;
                            NumMessages := 1;
                            NumExtensions := 0;
                            NumServices := 0 |};
                 GoTypes := file_google_bigtable_admin_v2_common_proto_goTypes st;
                 DependencyIndexes := file_google_bigtable_admin_v2_common_proto_depIdxs st;
                 EnumInfos := file_google_bigtable_admin_v2_common_proto_enumTypes st;
                 MessageInfos := msgTypes |} in
      Some {| File_google_bigtable_admin_v2_common_proto := Some (out_File out);
              file_google_bigtable_admin_v2_common_proto_rawDesc := [];
              file_google_bigtable_admin_v2_common_proto_rawDescOnce :=
                file_google_bigtable_admin_v2_common_proto_rawDescOnce st;
              file_google_bigtable_admin_v2_common_proto_rawDescData :=
                file_google_bigtable_admin_v2_common_proto_rawDescData st;
              file_google_bigtable_admin_v2_common_proto_enumTypes := built_EnumInfos out;
              file_google_bigtable_admin_v2_common_proto_msgTypes := built_MessageInfos out;
              file_google_bigtable_admin_v2_common_proto_goTypes := [];
              file_google_bigtable_admin_v2_common_proto_depIdxs := [] |}
  end.

(** The package's [init] function. *)
Definition init (st : PackageState) : option PackageState :=
  file_google_bigtable_admin_v2_common_proto_init st.

(** *** Messages in memory, with their unexported fields *)

(** [state] holds the message info the runtime attached, as an index into
    [msgTypes]. *)
Record MessageInternals := {
  state : option nat;
  sizeCache : Z;
  unknownFields : list Byte.byte
}.

Definition zeroInternals : MessageInternals :=
  {| state := None; sizeCache := 0; unknownFields := [] |}.

Definition zeroOperationProgress : OperationProgress :=
  {| ProgressPercent := 0; StartTime := None; EndTime := None |}.

Record Memory := {
  messages : Heap;
  internals : gmap positive MessageInternals
}.

Definition internals_at (m : Memory) (l : positive) : MessageInternals :=
  default zeroInternals (internals m !! l).

(** [MessageState.LoadMessageInfo] and [MessageState.StoreMessageInfo]. *)
Definition LoadMessageInfo (m : Memory) (l : positive) : option nat :=
  state (internals_at m l).

Definition StoreMessageInfo (m : Memory) (l : positive) (mi : nat) : Memory :=
  {| messages := messages m;
     internals :=
       <[l := {| state := Some mi;
                 sizeCache := sizeCache (internals_at m l);
                 unknownFields := unknownFields (internals_at m l) |}]> (internals m) |}.

(** [OperationProgress.Reset]; [None] is the nil-dereference panic. *)
Definition Reset (m : Memory) (x : pointer) : option Memory :=
  match x with
  | None => None
  | Some l =>
      match messages m !! l with
      | None => None
      | Some _ =>
          let m := {| messages := <[l := zeroOperationProgress]> (messages m);
                      internals := <[l := zeroInternals]> (internals m) |} in
          if UnsafeEnabled
          then
            let mi := 0%nat in
            Some (StoreMessageInfo m l mi)
          else Some m
      end
  end.

(** The two ways [ProtoReflect] builds its [protoreflect.Message]: from
    the state field of the message, or from the message info. *)
Inductive Message :=
| MessageOfState (l : positive)
| MessageOfInfo (mi : nat) (x : pointer).

Definition ProtoReflect (m : Memory) (x : pointer) : option (Message * Memory) :=
  let mi := 0%nat in
  if UnsafeEnabled && bool_decide (x <> None)
  then
    match x with
    | None => None
    | Some l =>
        match messages m !! l with
        | None => None
        | Some _ =>
            let m :=
              if bool_decide (LoadMessageInfo m l = None)
              then StoreMessageInfo m l mi
              else m in
            Some (MessageOfState l, m)
        end
    end
  else Some (MessageOfInfo mi x, m).

(** *** Sequences of calls into the package *)

Inductive PackageCall :=
| CallInit
| CallRawDescGZIP
| CallEnumDescriptor
| CallDescriptor.

(** One call: the descriptor bytes it answers with, if it answers with
    any, and the state it leaves; [None] is a panic. *)
Definition package_call (c : PackageCall) (st : PackageState)
  : option (option (list Byte.byte * list Z) * PackageState) :=
  match c with
  | CallInit => st' ← init st; Some (None, st')
  | CallRawDescGZIP =>
      let '(b, st') := file_google_bigtable_admin_v2_common_proto_rawDescGZIP st in
      Some (Some (b, []), st')
  | CallEnumDescriptor =>
      let '(r, st') := EnumDescriptor st in Some (Some r, st')
  | CallDescriptor =>
      let '(r, st') := Descriptor st in Some (Some r, st')
  end.

(** A sequence of calls: the bytes answered, in order, and the final state. *)
Fixpoint package_calls (cs : list PackageCall) (st : PackageState)
  : option (list (list Byte.byte) * PackageState) :=
  match cs with
  | [] => Some ([], st)
  | c :: cs' =>
      '(r, st') ← package_call c st;
      '(answers, st'') ← package_calls cs' st';
      Some (match r with
            | Some (b, _) => b :: answers
            | None => answers
            end, st'')
  end.

(** The descriptor bytes are in place: raw until the first compression,
    compressed once after it, and [init] still has a message type to work
    on if it has not run. *)
Definition descriptor_in_place (st : PackageState) : Prop :=
  (File_google_bigtable_admin_v2_common_proto st = None ->
   file_google_bigtable_admin_v2_common_proto_msgTypes st <> [])
  /\ file_google_bigtable_admin_v2_common_proto_rawDescData st
     = (if file_google_bigtable_admin_v2_common_proto_rawDescOnce st
        then CompressGZIP rawDesc_bytes
        else rawDesc_bytes).

End Runtime.

End admin.


(** ** Package kubevirt: the infra-cluster client wrapper *)

Module kubevirt.

(** *** Types of the client libraries *)

(** [schema.GroupVersion] and [schema.GroupVersionResource]. *)
Record GroupVersion := {
  Group : string;
  Version : string
}.

Record GroupVersionResource := {
  gvrGroup : string;
  gvrVersion : string;
  gvrResource : string
}.

(** The group/version constants of the imported API packages. *)
Class APIGroups := {
  nadv1_SchemeGroupVersion : GroupVersion;
  kubevirtapiv1_GroupVersion : GroupVersion;
  cdiapiv1alpa1_SchemeGroupVersion : GroupVersion;
  corev1_SchemeGroupVersion : GroupVersion
}.

(** [unstructured.Unstructured], seen through the three accessors the
    wrapper calls on it. *)
Record Unstructured := {
  GetNamespace : string;
  GetName : string;
  GetLabels : gmap string string
}.

(** [unstructured.UnstructuredList]. *)
Record UnstructuredList := {
  Items : list Unstructured
}.

(** The cluster seen from the wrapper: the three calls it makes on
    [dynamic.Interface] (for a resource kind and a namespace) and
    [time.Sleep].  Every call answers and moves the world on; a call
    returns either its object or its error, as client-go does. *)
Class Cluster (W : Type) := {
  dynamic_Delete : GroupVersionResource -> string -> string -> W -> option error * W;
  dynamic_Get : GroupVersionResource -> string -> string -> W -> (Unstructured + error) * W;
  dynamic_List : GroupVersionResource -> string -> W -> (UnstructuredList + error) * W;
  time_Sleep : Z -> W -> W
}.

(** *** The monad of the wrapper: the world and the calls made so far *)

Inductive Call :=
| CallDelete (resource : GroupVersionResource) (namespace name : string)
| CallGet (resource : GroupVersionResource) (namespace name : string)
| CallList (resource : GroupVersionResource) (namespace : string)
| CallSleep (d : Z).

Record St (W : Type) := mkSt {
  world : W;
  calls : list Call
}.
Arguments mkSt {W} world calls.
Arguments world {W} s.
Arguments calls {W} s.

Definition M (W A : Type) : Type := St W -> A * St W.

#[global] Instance M_ret {W} : MRet (M W) := fun A a s => (a, s).

#[global] Instance M_bind {W} : MBind (M W) :=
  fun A B f m s => let '(a, s') := m s in f a s'.

(** The error of a Go result pair. *)
Definition err_of {A} (r : A + error) : option error :=
  match r with
  | inl _ => None
  | inr e => Some e
  end.

(** [fmt.Sprintf] for formats whose only verb is [%s]. *)
Fixpoint Sprintf (format : string) (args : list string) : string :=
  match format with
  | EmptyString => EmptyString
  | String "%"%char (String "s"%char rest) =>
      match args with
      | a :: args' => a +:+ Sprintf rest args'
      | [] => "%!s(MISSING)" +:+ Sprintf rest []
      end
  | String c rest => String c (Sprintf rest args)
  end.

Definition fmt_Errorf (format : string) (args : list string) : error :=
  errorString (Sprintf format args).

Section Client.

Context {W : Type} `{!Cluster W} `{!APIGroups}.

(** *** Calls into the cluster, recorded as they are made *)

Definition Delete (resource : GroupVersionResource) (namespace name : string)
  : M W (option error) :=
  fun s =>
    let '(err, w) := dynamic_Delete resource namespace name (world s) in
    (err, mkSt w (calls s ++ [CallDelete resource namespace name])).

Definition Get (resource : GroupVersionResource) (namespace name : string)
  : M W (Unstructured + error) :=
  fun s =>
    let '(r, w) := dynamic_Get resource namespace name (world s) in
    (r, mkSt w (calls s ++ [CallGet resource namespace name])).

Definition List (resource : GroupVersionResource) (namespace : string)
  : M W (UnstructuredList + error) :=
  fun s =>
    let '(r, w) := dynamic_List resource namespace (world s) in
    (r, mkSt w (calls s ++ [CallList resource namespace])).

Definition Sleep (d : Z) : M W unit :=
  fun s => (tt, mkSt (time_Sleep d (world s)) (calls s ++ [CallSleep d])).

(** *** The wrapper *)

Definition getResource (namespace name : string) (resource : GroupVersionResource)
  : M W (Unstructured + error) :=
  Get resource namespace name.

(** The [for ; getErr == nil; _, getErr = c.getResource(...)] loop of
    [deleteResource], entered at its condition. *)
Fixpoint deleteResource_loop (fuel : nat) (namespace name : string)
    (resource : GroupVersionResource) (getErr : option error) (counter : Z)
  : M W (fueled (option error)) :=
  match fuel with
  | O => mret OutOfFuel
  | S fuel' =>
      match getErr with
      | Some _ => mret (Returned None)
      | None =>
          if bool_decide (counter = 5)
          then mret (Returned (Some (fmt_Errorf
                 "Failed to delete resource %s, checked 5 times and the vm stil exists"
                 [name])))
          else
            Sleep (1 * Second);;
            let counter := int_add counter 1 in
            r ← getResource namespace name resource;
            deleteResource_loop fuel' namespace name resource (err_of r) counter
      end
  end.

Definition deleteResource (fuel : nat) (namespace name : string)
    (resource : GroupVersionResource) (wait : bool)
  : M W (fueled (option error)) :=
  err ← Delete resource namespace name;
  match err with
  | Some e => mret (Returned (Some e))
  | None =>
      if negb wait
      then mret (Returned None)
      else
        let getErr := None in
        let counter := 0 in
        deleteResource_loop fuel namespace name resource getErr counter
  end.

(** The [for k, v := range requiredLabels] loop, over the pairs of the map
    in the order the runtime hands them out; [result ++ [name]] is the
    append followed by [break]. *)
Fixpoint listResource_labels (kvs : list (string * string))
    (existLabels : gmap string string) (name : string) (result : list string)
  : list string :=
  match kvs with
  | [] => result
  | (k, v) :: kvs' =>
      match existLabels !! k with
      | Some existVal =>
          if bool_decide (existVal = v)
          then result ++ [name]
          else listResource_labels kvs' existLabels name result
      | None => listResource_labels kvs' existLabels name result
      end
  end.

(** One round of the [for _, d := range list.Items] loop. *)
Definition listResource_item (namespace : string) (requiredLabels : gmap string string)
    (result : list string) (d : Unstructured) : list string :=
  if bool_decide (GetNamespace d <> namespace)
  then result
  else
    let existLabels := GetLabels d in
    listResource_labels (map_to_list requiredLabels) existLabels (GetName d) result.

Definition listResource (namespace : string) (requiredLabels : gmap string string)
    (resource : GroupVersionResource) : M W (list string * option error) :=
  let result := [] in
  r ← List resource namespace;
  match r with
  | inr err => mret ([], Some err)
  | inl list =>
      mret (foldl (listResource_item namespace requiredLabels) result (Items list), None)
  end.

Definition GetNetworkAttachmentDefinition (name namespace : string)
  : M W (Unstructured + error) :=
  let nadRes := {| gvrGroup := Group nadv1_SchemeGroupVersion;
                   gvrVersion := Version nadv1_SchemeGroupVersion;
                   gvrResource := "network-attachment-definitions" |} in
  getResource namespace name nadRes.

Definition DeleteVirtualMachine (fuel : nat) (namespace name : string) (wait : bool)
  : M W (fueled (option error)) :=
  let vmRes := {| gvrGroup := Group kubevirtapiv1_GroupVersion;
                  gvrVersion := Version kubevirtapiv1_GroupVersion;
                  gvrResource := "virtualmachines" |} in
  deleteResource fuel namespace name vmRes wait.

Definition ListVirtualMachineNames (namespace : string)
    (requiredLabels : gmap string string) : M W (list string * option error) :=
  let vmRes := {| gvrGroup := Group kubevirtapiv1_GroupVersion;
                  gvrVersion := Version kubevirtapiv1_GroupVersion;
                  gvrResource := "virtualmachines" |} in
  listResource namespace requiredLabels vmRes.

Definition DeleteDataVolume (fuel : nat) (namespace name : string) (wait : bool)
  : M W (fueled (option error)) :=
  let dvRes := {| gvrGroup := Group cdiapiv1alpa1_SchemeGroupVersion;
                  gvrVersion := Version cdiapiv1alpa1_SchemeGroupVersion;
                  gvrResource := "datavolumes" |} in
  deleteResource fuel namespace name dvRes wait.

Definition ListDataVolumeNames (namespace : string)
    (requiredLabels : gmap string string) : M W (list string * option error) :=
  let dvRes := {| gvrGroup := Group cdiapiv1alpa1_SchemeGroupVersion;
                  gvrVersion := Version cdiapiv1alpa1_SchemeGroupVersion;
                  gvrResource := "datavolumes" |} in
  listResource namespace requiredLabels dvRes.

Definition DeleteSecret (fuel : nat) (namespace name : string) (wait : bool)
  : M W (fueled (option error)) :=
  let secretRes := {| gvrGroup := Group corev1_SchemeGroupVersion;
                      gvrVersion := Version corev1_SchemeGroupVersion;
                      gvrResource := "secrets" |} in
  deleteResource fuel namespace name secretRes wait.

Definition ListSecretNames (namespace : string)
    (requiredLabels : gmap string string) : M W (list string * option error) :=
  let secretRes := {| gvrGroup := Group corev1_SchemeGroupVersion;
                      gvrVersion := Version corev1_SchemeGroupVersion;
                      gvrResource := "secrets" |} in
  listResource namespace requiredLabels secretRes.

End Client.

(** *** Locating and reading the kubeconfig *)

(** The process environment and the files [ioutil.ReadFile] can see: a file
    name leads to the bytes of the file or to the error of opening it. *)
Record OS := {
  environ : gmap string string;
  files : gmap string (list Byte.byte + error)
}.

(** [os.Getenv]: the empty string when the variable is not set. *)
Definition os_Getenv (os : OS) (key : string) : string :=
  default "" (environ os !! key).

(** [ioutil.ReadFile]. *)
Definition ioutil_ReadFile (os : OS) (filename : string) : list Byte.byte * option error :=
  match files os !! filename with
  | Some (inl content) => (content, None)
  | Some (inr err) => ([], Some err)
  | None => ([], Some (PathError "open" filename "no such file or directory"))
  end.

(** The package-level variables. *)
Record Package := {
  kubeConfigEnvName : string;
  kubeConfigDefaultFilename : string
}.

Section KubeConfig.

(** [filepath.Join] of the Go standard library. *)
Variable filepath_Join : list string -> string.

(** Package initialisation, in the environment the process starts with. *)
Definition package_init (os : OS) : Package :=
  {| kubeConfigEnvName := "KUBECONFIG";
     kubeConfigDefaultFilename := filepath_Join [os_Getenv os "HOME"; ".kube"; "config"] |}.

Definition LoadKubeConfigContent (pkg : Package) (os : OS)
  : list Byte.byte * option error :=
  let kubeConfigFilename := os_Getenv os (kubeConfigEnvName pkg) in
  let kubeConfigFilename :=
    if bool_decide (kubeConfigFilename = "")
    then kubeConfigDefaultFilename pkg
    else kubeConfigFilename in
  ioutil_ReadFile os kubeConfigFilename.

End KubeConfig.

(** *** Building the client *)

(** The [client] struct: the two clients it wraps, nil until they are set. *)
Record client (Clientset Dynamic : Type) := {
  kubernetesClient : option Clientset;
  dynamicClient : option Dynamic
}.
Arguments kubernetesClient {Clientset Dynamic} c.
Arguments dynamicClient {Clientset Dynamic} c.

Section NewClient.

(** The configuration the deferred loader comes up with for the default
    loading rules and no overrides, and the two constructors of client-go;
    each returns its value or its error. *)
Context {Config Clientset Dynamic : Type}.
Variable ClientConfig : Config + error.
Variable kubernetes_NewForConfig : Config -> Clientset + error.
Variable dynamic_NewForConfig : Config -> Dynamic + error.

Definition NewClient : option (client Clientset Dynamic) * option error :=
  match ClientConfig with
  | inr err => (None, Some err)
  | inl restClientConfig =>
      let result : client Clientset Dynamic :=
        {| kubernetesClient := None; dynamicClient := None |} in
      match kubernetes_NewForConfig restClientConfig with
      | inr err => (None, Some err)
      | inl k =>
          let result : client Clientset Dynamic :=
            {| kubernetesClient := Some k; dynamicClient := dynamicClient result |} in
          match dynamic_NewForConfig restClientConfig with
          | inr err => (None, Some err)
          | inl d =>
              let result : client Clientset Dynamic :=
                {| kubernetesClient := kubernetesClient result; dynamicClient := Some d |} in
              (Some result, None)
          end
      end
  end.

End NewClient.

End kubevirt.


(** ** Vocabulary of the properties *)

Module spec.

Import kubevirt.

Section Polling.

Context {W : Type} `{!Cluster W}.

Variable resource : GroupVersionResource.
Variables namespace name : string.

(** One poll as the cluster sees it: a second goes by, then the resource
    is looked up. *)
Definition poll (w : W) : (Unstructured + error) * W :=
  dynamic_Get resource namespace name (time_Sleep (1 * Second) w).

(** The answers to the first [n] polls made from world [w]. *)
Fixpoint poll_answers (n : nat) (w : W) : list (Unstructured + error) :=
  match n with
  | O => []
  | S n' => let '(r, w') := poll w in r :: poll_answers n' w'
  end.

(** The world left behind by [n] polls. *)
Fixpoint world_after_polls (n : nat) (w : W) : W :=
  match n with
  | O => w
  | S n' => world_after_polls n' (snd (poll w))
  end.

(** The calls of [n] polls: a one-second sleep before each lookup. *)
Definition poll_calls (n : nat) : list Call :=
  concat (replicate n [CallSleep (1 * Second); CallGet resource namespace name]).

(** The resource is still reported after each of the first [n] polls. *)
Definition still_exists (n : nat) (w : W) : Prop :=
  Forall (fun r => err_of r = None) (poll_answers n w).

End Polling.

(** At least one required label is carried with an equal value. *)
Definition label_any_match (requiredLabels existLabels : gmap string string) : Prop :=
  exists k v, requiredLabels !! k = Some v /\ existLabels !! k = Some v.

(** Every required label is carried with an equal value, as a label
    selector asks. *)
Definition label_all_match (requiredLabels existLabels : gmap string string) : Prop :=
  forall k v, requiredLabels !! k = Some v -> existLabels !! k = Some v.

#[global] Instance label_any_match_dec req labels : Decision (label_any_match req labels).
Proof.
  refine (cast_if (decide (map_Exists (fun k v => labels !! k = Some v) req)));
    unfold label_any_match, map_Exists in *; assumption.
Defined.

#[global] Instance label_all_match_dec req labels : Decision (label_all_match req labels).
Proof.
  refine (cast_if (decide (map_Forall (fun k v => labels !! k = Some v) req)));
    unfold label_all_match, map_Forall in *; assumption.
Defined.

(** List-then-filter, with either reading of a match on the labels. *)
Definition names_matching_any (namespace : string) (requiredLabels : gmap string string)
    (items : list Unstructured) : list string :=
  GetName <$>
    filter (fun d => GetNamespace d = namespace /\
                     label_any_match requiredLabels (GetLabels d)) items.

Definition names_matching_all (namespace : string) (requiredLabels : gmap string string)
    (items : list Unstructured) : list string :=
  GetName <$>
    filter (fun d => GetNamespace d = namespace /\
                     label_all_match requiredLabels (GetLabels d)) items.

(** The three resource kinds of the destroy path. *)
Definition vmRes `{!APIGroups} : GroupVersionResource :=
  {| gvrGroup := Group kubevirtapiv1_GroupVersion;
     gvrVersion := Version kubevirtapiv1_GroupVersion;
     gvrResource := "virtualmachines" |}.

Definition dvRes `{!APIGroups} : GroupVersionResource :=
  {| gvrGroup := Group cdiapiv1alpa1_SchemeGroupVersion;
     gvrVersion := Version cdiapiv1alpa1_SchemeGroupVersion;
     gvrResource := "datavolumes" |}.

Definition secretRes `{!APIGroups} : GroupVersionResource :=
  {| gvrGroup := Group corev1_SchemeGroupVersion;
     gvrVersion := Version corev1_SchemeGroupVersion;
     gvrResource := "secrets" |}.


(** A call that concerns the named resource of the given kind only: its
    delete, a lookup of it, or a sleep. *)
Definition concerns (resource : GroupVersionResource) (namespace name : string)
    (c : Call) : Prop :=
  match c with
  | CallDelete r ns n => r = resource /\ ns = namespace /\ n = name
  | CallGet r ns n => r = resource /\ ns = namespace /\ n = name
  | CallList _ _ => False
  | CallSleep _ => True
  end.

End spec.


(** ** Go's path/filepath on Unix

    [Clean] and [Join] as the standard library has them for Unix paths (no
    volume names, [/] as the separator); [LoadKubeConfigContent] is
    verified for every join, and run with this one. *)

Module filepath.

Definition is_sep (c : ascii) : bool := bool_decide (c = "/"%char).

Definition is_dot (c : ascii) : bool := bool_decide (c = "."%char).

(** The position after the current byte is the end of the path or a
    separator. *)
Definition ends_element (rest : list ascii) : bool :=
  match rest with
  | [] => true
  | c :: _ => is_sep c
  end.

(** Backing up over the last element of the output buffer: from write
    position [w], down to [dotdot] or to a separator. *)
Fixpoint backtrack (w : nat) (out : list ascii) (dotdot : nat) : nat :=
  match w with
  | O => O
  | S w' =>
      if bool_decide (dotdot < w)%nat && negb (is_sep (nth w out "/"%char))
      then backtrack w' out dotdot
      else w
  end.

Fixpoint span_element (path : list ascii) : list ascii * list ascii :=
  match path with
  | [] => ([], [])
  | c :: rest =>
      if is_sep c then ([], path)
      else let '(e, rest') := span_element rest in (c :: e, rest')
  end.

Fixpoint clean_loop (fuel : nat) (rooted : bool) (path out : list ascii) (dotdot : nat)
  : list ascii :=
  match fuel, path with
  | O, _ => out
  | _, [] => out
  | S fuel', c :: rest =>
      if is_sep c then clean_loop fuel' rooted rest out dotdot
      else if is_dot c && ends_element rest then clean_loop fuel' rooted rest out dotdot
      else if is_dot c && ends_element (tail rest) && bool_decide (head rest = Some "."%char)
      then
        let rest := tail rest in
        if bool_decide (dotdot < length out)%nat
        then
          let w := backtrack (length out - 1) out dotdot in
          clean_loop fuel' rooted rest (take w out) dotdot
        else if negb rooted
        then
          let out := if bool_decide (0 < length out)%nat then out ++ ["/"%char] else out in
          let out := out ++ ["."%char; "."%char] in
          clean_loop fuel' rooted rest out (length out)
        else clean_loop fuel' rooted rest out dotdot
      else
        let out :=
          if (rooted && bool_decide (length out <> 1%nat))
             || (negb rooted && bool_decide (length out <> 0%nat))
          then out ++ ["/"%char] else out in
        let '(element, rest') := span_element path in
        clean_loop fuel' rooted rest' (out ++ element) dotdot
  end.

Definition Clean (path : string) : string :=
  match list_ascii_of_string path with
  | [] => "."
  | c :: rest =>
      let rooted := is_sep c in
      let out :=
        if rooted
        then clean_loop (S (length rest)) rooted rest ["/"%char] 1
        else clean_loop (S (S (length rest))) rooted (c :: rest) [] 0 in
      match out with
      | [] => "."
      | _ => string_of_list_ascii out
      end
  end.

(** [strings.Join]. *)
Fixpoint strings_Join (elems : list string) (sep : string) : string :=
  match elems with
  | [] => ""
  | [e] => e
  | e :: rest => e +:+ sep +:+ strings_Join rest sep
  end.

Fixpoint Join (elem : list string) : string :=
  match elem with
  | [] => ""
  | e :: rest =>
      if bool_decide (e <> "") then Clean (strings_Join elem "/") else Join rest
  end.

(** A path element that [Clean] keeps as it is: not empty, free of
    separators, and neither [.] nor [..]. *)
Definition plain_element (e : list ascii) : Prop :=
  (e <> []) /\ (("/"%char) ∉ e) /\ (e <> ["."%char]) /\ (e <> ["."%char; "."%char]).

(** The rooted path [/e1/.../en]. *)
Definition rooted_path (es : list (list ascii)) : list ascii :=
  concat ((fun e => "/"%char :: e) <$> es).

End filepath.


(** ** Concrete environments to run the code in *)

Module fixtures.

Import validation kubevirt filepath.

(** *** An integer fragment of the quantity grammar

    An optional sign, decimal digits and an optional binary or decimal
    suffix; the quantity is its value, and [Sign] is the sign of the value. *)

Definition ErrFormatWrong : error :=
  errorString "quantities must match the regular expression '^([+-]?[0-9.]+)([eEinumkKMGTP]*[-+]?[0-9]*)$'".

Definition ErrSuffix : error :=
  errorString "unable to parse quantity's suffix".

Definition digit_value (c : ascii) : option Z :=
  let n := Z.of_nat (nat_of_ascii c) in
  if bool_decide (48 <= n <= 57) then Some (n - 48) else None.

Fixpoint parse_digits (acc : Z) (s : string) : Z * string :=
  match s with
  | EmptyString => (acc, EmptyString)
  | String c rest =>
      match digit_value c with
      | Some d => parse_digits (10 * acc + d) rest
      | None => (acc, s)
      end
  end.

Definition suffix_scale (s : string) : option Z :=
  if bool_decide (s = "") then Some 1
  else if bool_decide (s = "Ki") then Some (2 ^ 10)
  else if bool_decide (s = "Mi") then Some (2 ^ 20)
  else if bool_decide (s = "Gi") then Some (2 ^ 30)
  else if bool_decide (s = "Ti") then Some (2 ^ 40)
  else if bool_decide (s = "k") then Some (10 ^ 3)
  else if bool_decide (s = "M") then Some (10 ^ 6)
  else if bool_decide (s = "G") then Some (10 ^ 9)
  else if bool_decide (s = "T") then Some (10 ^ 12)
  else None.

Definition split_sign (s : string) : bool * string :=
  match s with
  | String "-"%char rest => (true, rest)
  | String "+"%char rest => (false, rest)
  | _ => (false, s)
  end.

Definition ParseQuantity (s : string) : Z + error :=
  let '(negative, body) := split_sign s in
  match body with
  | EmptyString => inr ErrFormatWrong
  | String c _ =>
      match digit_value c with
      | None => inr ErrFormatWrong
      | Some _ =>
          let '(n, suffix) := parse_digits 0 body in
          match suffix_scale suffix with
          | Some scale => inl ((if negative : bool then - n else n) * scale)
          | None => inr ErrSuffix
          end
      end
  end.

Definition Sign (q : Z) : Z := Z.sgn q.

(** *** A cluster that answers from a script

    [Delete] and [List] give fixed answers; every [Get] consumes the next
    scripted answer and reports not-found once the script is used up; the
    clock adds up the time slept. *)

Record Script := {
  deleteAnswer : option error;
  getAnswers : list (Unstructured + error);
  listAnswer : UnstructuredList + error;
  clock : Z
}.

Definition notFound (name : string) : error :=
  StatusError StatusReasonNotFound (name +:+ " not found").

Definition script_Get (name : string) (w : Script) : (Unstructured + error) * Script :=
  match getAnswers w with
  | r :: rest =>
      (r, {| deleteAnswer := deleteAnswer w; getAnswers := rest;
             listAnswer := listAnswer w; clock := clock w |})
  | [] => (inr (notFound name), w)
  end.

Definition script_Sleep (d : Z) (w : Script) : Script :=
  {| deleteAnswer := deleteAnswer w; getAnswers := getAnswers w;
     listAnswer := listAnswer w; clock := clock w + d |}.

#[global] Instance Script_Cluster : Cluster Script := {|
  dynamic_Delete _ _ _ w := (deleteAnswer w, w);
  dynamic_Get _ _ name w := script_Get name w;
  dynamic_List _ _ w := (listAnswer w, w);
  time_Sleep := script_Sleep
|}.

#[global] Instance groups : APIGroups := {|
  nadv1_SchemeGroupVersion := {| Group := "k8s.cni.cncf.io"; Version := "v1" |};
  kubevirtapiv1_GroupVersion := {| Group := "kubevirt.io"; Version := "v1alpha3" |};
  cdiapiv1alpa1_SchemeGroupVersion := {| Group := "cdi.kubevirt.io"; Version := "v1alpha1" |};
  corev1_SchemeGroupVersion := {| Group := ""; Version := "v1" |}
|}.

Definition object (namespace name : string) (labels : list (string * string))
  : Unstructured :=
  {| GetNamespace := namespace; GetName := name; GetLabels := list_to_map labels |}.

Definition start (w : Script) : St Script := mkSt w [].

(** *** Pools, clusters and machines the code is run on *)

Definition worker_pool : MachinePool :=
  {| CPU := 4; Memory := "16Gi"; StorageSize := "120Gi" |}.

Definition broken_pool : MachinePool :=
  {| CPU := 0; Memory := "lots"; StorageSize := "-5Gi" |}.

Definition vm : GroupVersionResource := spec.vmRes.

Definition forbidden : error :=
  StatusError StatusReasonForbidden "virtualmachines is forbidden".

Definition unavailable : error :=
  StatusError StatusReasonServiceUnavailable "the server is currently unable to handle the request".

(** The machine is still listed at the first poll and gone at the second. *)
Definition gone_at_second_poll : Script :=
  {| deleteAnswer := None;
     getAnswers := [inl (object "infra" "worker-0" []);
                    inr (notFound "worker-0")];
     listAnswer := inl {| Items := [] |};
     clock := 0 |}.

(** The machine never goes away. *)
Definition never_gone : Script :=
  {| deleteAnswer := None;
     getAnswers := replicate 8 (inl (object "infra" "worker-0" []));
     listAnswer := inl {| Items := [] |};
     clock := 0 |}.

(** The third poll is refused; the machine is in fact still there. *)
Definition refused_at_third_poll : Script :=
  {| deleteAnswer := None;
     getAnswers := [inl (object "infra" "worker-0" []);
                    inl (object "infra" "worker-0" []);
                    inr forbidden;
                    inl (object "infra" "worker-0" [])];
     listAnswer := inl {| Items := [] |};
     clock := 0 |}.

(** The delete call itself is refused. *)
Definition delete_refused : Script :=
  {| deleteAnswer := Some forbidden;
     getAnswers := [inl (object "infra" "worker-0" [])];
     listAnswer := inr unavailable;
     clock := 0 |}.

Definition listed_machines : list Unstructured :=
  [object "infra" "master-0" [("cluster", "c1"); ("role", "master")];
   object "infra" "worker-0" [("cluster", "c1"); ("role", "worker")];
   object "infra" "other-0" [("cluster", "c2")];
   object "infra" "bare-0" [];
   object "elsewhere" "worker-9" [("cluster", "c1"); ("role", "worker")]].

Definition listing : Script :=
  {| deleteAnswer := None;
     getAnswers := [];
     listAnswer := inl {| Items := listed_machines |};
     clock := 0 |}.

Definition workers_of_c1 : gmap string string :=
  {[ "cluster" := "c1"; "role" := "worker" ]}.

Definition kubeconfig_bytes : list Byte.byte := [Byte.x61; Byte.x70; Byte.x69].

Definition default_bytes : list Byte.byte := [Byte.x6b; Byte.x38; Byte.x73].

Definition machine_files : gmap string (list Byte.byte + error) :=
  {[ "/tmp/admin.kubeconfig" := inl kubeconfig_bytes;
     "/home/core/.kube/config" := inl default_bytes ]}.

Definition with_kubeconfig : OS :=
  {| environ := {[ "HOME" := "/home/core"; "KUBECONFIG" := "/tmp/admin.kubeconfig" ]};
     files := machine_files |}.

Definition without_kubeconfig : OS :=
  {| environ := {[ "HOME" := "/home/core" ]};
     files := machine_files |}.

Definition empty_kubeconfig : OS :=
  {| environ := {[ "HOME" := "/home/core"; "KUBECONFIG" := "" ]};
     files := machine_files |}.

(** *** Stand-ins for the protobuf runtime *)

(** A compressor that only frames its input. *)
Definition framed (b : list Byte.byte) : list Byte.byte :=
  Byte.x1f :: Byte.x8b :: b.

(** A builder that hands back what it was given, with the package path as
    the file descriptor. *)
Definition plain_Build (tb : admin.TypeBuilder (EnumInfo := unit) (MessageInfoData := unit))
  : admin.Built (FileDescriptor := string) :=
  {| admin.out_File := admin.GoPackagePath (admin.File tb);
     admin.built_EnumInfos := admin.EnumInfos tb;
     admin.built_MessageInfos := admin.MessageInfos tb |}.

Definition admin_path : string := "google.golang.org/genproto/googleapis/bigtable/admin/v2".

(** A memory with one message in progress and one that is done. *)
Definition two_operations : admin.Memory :=
  {| admin.messages :=
       {[ 1%positive := {| admin.ProgressPercent := 40;
                           admin.StartTime := Some 7%positive;
                           admin.EndTime := None |};
          2%positive := {| admin.ProgressPercent := 100;
                           admin.StartTime := Some 8%positive;
                           admin.EndTime := Some 9%positive |} ]};
     admin.internals := ∅ |}.

Definition of_c1 : gmap string string := {[ "cluster" := "c1" ]}.

(** The package of the stand-in runtime, its variables just initialised. *)
Definition fresh_package : admin.PackageState (FileDescriptor := string) :=
  admin.package_vars tt tt.

End fixtures.


(** * Proofs *)

(** Small integers are not touched by the wrap-around of [int]. *)
Lemma wrap_int_small (z : Z) : int_min <= z <= int_max -> wrap_int z = z.
Proof.
  unfold wrap_int, int_min, int_max. intros Hz.
  rewrite Z.mod_small by lia. lia.
Qed.

Module validation_proofs.

Import validation.

Section WithQuantity.

Context {Quantity : Type}.
Variable ParseQuantity : string -> Quantity + error.
Variable Sign : Quantity -> Z.

Abbreviation Validate := (ValidateMachinePool ParseQuantity Sign).
Abbreviation positive := (positive_quantity ParseQuantity Sign).

Lemma positive_intro (s : string) (q : Quantity) :
  ParseQuantity s = inl q -> Sign q = 1 -> positive s.
Proof. intros Hq Hs. exists q. auto. Qed.

Lemma not_positive_unparsed (s : string) (e : error) :
  ParseQuantity s = inr e -> ~ positive s.
Proof. intros Hq (q & Hq' & _). congruence. Qed.

Lemma not_positive_sign (s : string) (q : Quantity) :
  ParseQuantity s = inl q -> Sign q <> 1 -> ~ positive s.
Proof. intros Hq Hs (q' & Hq' & Hs'). congruence. Qed.

(** C2. A pool with a positive CPU count whose storage size and memory both
    parse as quantities of sign 1 passes the validation: the error list is
    empty. *)
Theorem ValidateMachinePool_valid_pool (p : MachinePool) (fldPath : Path)
    (storageQuantity memoryQuantity : Quantity) :
  0 < CPU p ->
  ParseQuantity (StorageSize p) = inl storageQuantity ->
  Sign storageQuantity = 1 ->
  ParseQuantity (Memory p) = inl memoryQuantity ->
  Sign memoryQuantity = 1 ->
  Validate p fldPath = [].
Proof.
  intros Hcpu Hs Hss Hm Hms. unfold ValidateMachinePool.
  rewrite bool_decide_eq_false_2 by lia.
  rewrite Hs, Hm, Hss, Hms. reflexivity.
Qed.

(** C3. The validation visits cpu, storage and memory in this order and
    reports each invalid one exactly once: the fields of the returned
    errors are the invalid fields of the pool, in order, every error is of
    type Invalid, and a later field is reported whatever the earlier ones
    were. *)
Theorem ValidateMachinePool_accumulates (p : MachinePool) (fldPath : Path) :
  Field <$> Validate p fldPath
    = (fun f => Child fldPath (field_name f)) <$> invalid_fields ParseQuantity Sign p
  /\ length (Validate p fldPath) = length (invalid_fields ParseQuantity Sign p)
  /\ Forall (fun e => Type_ e = ErrorTypeInvalid) (Validate p fldPath).
Proof.
  assert (Hmain :
    Field <$> Validate p fldPath
      = (fun f => Child fldPath (field_name f)) <$> invalid_fields ParseQuantity Sign p
    /\ Forall (fun e => Type_ e = ErrorTypeInvalid) (Validate p fldPath)).
  { unfold ValidateMachinePool, invalid_fields, pool_fields.
    rewrite !filter_cons, filter_nil. cbn [field_invalid].
    destruct (decide (CPU p <= 0)) as [Hc|Hc];
      [rewrite (bool_decide_eq_true_2 _ Hc) | rewrite (bool_decide_eq_false_2 _ Hc)];
    (destruct (ParseQuantity (StorageSize p)) as [qs|es] eqn:Hs;
      [ destruct (decide (Sign qs = 1)) as [Hss|Hss];
        [ rewrite (bool_decide_eq_false_2 (Sign qs <> 1)) by tauto;
          pose proof (positive_intro _ _ Hs Hss) as Hps
        | rewrite (bool_decide_eq_true_2 _ Hss);
          pose proof (not_positive_sign _ _ Hs Hss) as Hps ]
      | pose proof (not_positive_unparsed _ _ Hs) as Hps ]);
    (destruct (ParseQuantity (Memory p)) as [qm|em] eqn:Hm;
      [ destruct (decide (Sign qm = 1)) as [Hms|Hms];
        [ rewrite (bool_decide_eq_false_2 (Sign qm <> 1)) by tauto;
          pose proof (positive_intro _ _ Hm Hms) as Hpm
        | rewrite (bool_decide_eq_true_2 _ Hms);
          pose proof (not_positive_sign _ _ Hm Hms) as Hpm ]
      | pose proof (not_positive_unparsed _ _ Hm) as Hpm ]);
    repeat first
      [ rewrite (decide_True (P := CPU p <= 0)) by assumption
      | rewrite (decide_False (P := CPU p <= 0)) by assumption
      | rewrite (decide_True (P := ~ positive _)) by assumption
      | rewrite (decide_False (P := ~ positive _)) by tauto ];
    (split; [reflexivity | simpl; repeat constructor]). }
  destruct Hmain as [Hfields Htypes].
  split; [exact Hfields | split; [ | exact Htypes]].
  apply (f_equal length) in Hfields. rewrite !length_fmap in Hfields. exact Hfields.
Qed.

End WithQuantity.

Import fixtures.

Lemma ValidateMachinePool_valid_pool_witness :
  ValidateMachinePool ParseQuantity Sign worker_pool (NewPath "compute") = [].
Proof.
  apply (ValidateMachinePool_valid_pool ParseQuantity Sign worker_pool (NewPath "compute")
           (120 * 2 ^ 30) (16 * 2 ^ 30)).
  - simpl. lia.
  - reflexivity.
  - reflexivity.
  - reflexivity.
  - reflexivity.
Defined.

(** A pool with three bad fields gets three errors, in the order of the
    checks. *)
Example ValidateMachinePool_broken_pool :
  Detail <$> ValidateMachinePool ParseQuantity Sign broken_pool (NewPath "compute")
  = ["CPU must be positive";
     "Storage size must be positive value";
     "Memory must be of Quantity type format"].
Proof. reflexivity. Qed.

End validation_proofs.

Module admin_proofs.

Import admin.

(** C10. On a nil receiver the getters do not touch memory:
    [GetProgressPercent] answers 0, [GetStartTime] and [GetEndTime] answer
    nil, whatever the heap holds, and none of them panics. *)
Theorem OperationProgress_getters_nil_receiver (h : Heap) :
  GetProgressPercent h None = Some 0
  /\ GetStartTime h None = Some None
  /\ GetEndTime h None = Some None.
Proof. repeat split. Qed.

(** On a receiver that points to a message the getters read its fields. *)
Lemma OperationProgress_getters_read (h : Heap) (l : positive) (m : OperationProgress) :
  h !! l = Some m ->
  GetProgressPercent h (Some l) = Some (ProgressPercent m)
  /\ GetStartTime h (Some l) = Some (StartTime m)
  /\ GetEndTime h (Some l) = Some (EndTime m).
Proof.
  intros Hl. unfold GetProgressPercent, GetStartTime, GetEndTime.
  rewrite bool_decide_eq_true_2 by discriminate. simpl. rewrite Hl. auto.
Qed.

End admin_proofs.

Module filepath_proofs.
Import filepath.

Lemma span_element_plain (e rest : list ascii) :
  ("/"%char) ∉ e -> ends_element rest = true ->
  span_element (e ++ rest) = (e, rest).
Proof.
  intros He Hrest. induction e as [|c e IH].
  - destruct rest as [|c rest]; [reflexivity|].
    cbn [app span_element ends_element] in *. rewrite Hrest. reflexivity.
  - apply not_elem_of_cons in He as [Hc He].
    cbn [app span_element].
    unfold is_sep at 1. rewrite bool_decide_eq_false_2 by congruence.
    rewrite IH by exact He. reflexivity.
Qed.

Lemma ends_element_rooted_path (es : list (list ascii)) :
  ends_element (rooted_path es) = true.
Proof. destruct es; reflexivity. Qed.

(** A separator is skipped. *)
Lemma clean_loop_separator (fuel : nat) (rooted : bool) (rest out : list ascii)
    (dotdot : nat) :
  clean_loop (S fuel) rooted ("/"%char :: rest) out dotdot
  = clean_loop fuel rooted rest out dotdot.
Proof. reflexivity. Qed.

(** A plain element is copied to the output, after a separator unless the
    output is just the root. *)
Lemma clean_loop_plain_element (fuel : nat) (e rest out : list ascii) :
  plain_element e -> ends_element rest = true ->
  clean_loop (S fuel) true (e ++ rest) out 1
  = clean_loop fuel true rest
      (out ++ (if bool_decide (length out <> 1%nat) then "/"%char :: e else e)) 1.
Proof.
  intros (Hne & Hsep & Hdot & Hdotdot) Hrest.
  destruct e as [|c e]; [congruence|].
  apply not_elem_of_cons in Hsep as Hsep'. destruct Hsep' as [Hc He].
  change ((c :: e) ++ rest) with (c :: (e ++ rest)).
  cbn [clean_loop].
  unfold is_sep at 1. rewrite bool_decide_eq_false_2 by congruence.
  assert (Hone : is_dot c && ends_element (e ++ rest) = false).
  { unfold is_dot. case_bool_decide as Hcd; [|reflexivity]. subst c.
    destruct e as [|c' e]; [congruence|].
    apply not_elem_of_cons in He as [Hc' _].
    simpl. unfold is_sep. rewrite bool_decide_eq_false_2 by congruence. reflexivity. }
  rewrite Hone.
  assert (Htwo : is_dot c && ends_element (tail (e ++ rest))
                 && bool_decide (head (e ++ rest) = Some "."%char) = false).
  { unfold is_dot. case_bool_decide as Hcd; [|reflexivity]. subst c.
    destruct e as [|c' e]; [congruence|]. simpl.
    case_bool_decide as Hc'; [|apply andb_false_r].
    injection Hc' as ->.
    destruct e as [|c'' e]; [congruence|].
    apply not_elem_of_cons in He as [_ He].
    apply not_elem_of_cons in He as [Hc'' _].
    simpl. unfold is_sep. rewrite bool_decide_eq_false_2 by congruence. reflexivity. }
  rewrite Htwo.
  change (c :: e ++ rest) with ((c :: e) ++ rest).
  rewrite span_element_plain by assumption.
  cbn [negb andb orb].
  rewrite orb_false_r.
  destruct (bool_decide (length out <> 1%nat)); rewrite <- ?app_assoc; reflexivity.
Qed.

(** Behind a first element, a rooted path of plain elements is copied as
    it stands. *)
Lemma clean_loop_rooted_path (es : list (list ascii)) (fuel : nat) (out : list ascii) :
  Forall plain_element es ->
  length out <> 1%nat ->
  (length (rooted_path es) < fuel)%nat ->
  clean_loop fuel true (rooted_path es) out 1 = out ++ rooted_path es.
Proof.
  intros Hes. revert fuel out. induction Hes as [|e es He Hes IH]; intros fuel out Hout Hfuel.
  - destruct fuel; simpl; rewrite app_nil_r; reflexivity.
  - unfold rooted_path in *. cbn [fmap list_fmap concat] in *.
    change (("/"%char :: e) ++ ?r) with ("/"%char :: (e ++ r)) in *.
    destruct fuel as [|fuel]; [simpl in Hfuel; lia|].
    destruct fuel as [|fuel].
    { destruct He as (Hne & _). destruct e; [congruence|].
      simpl in Hfuel. lia. }
    rewrite clean_loop_separator.
    rewrite clean_loop_plain_element
      by (auto; apply (ends_element_rooted_path es)).
    rewrite bool_decide_eq_true_2 by exact Hout.
    rewrite IH.
    + rewrite <- app_assoc. reflexivity.
    + destruct He as (Hne & _). destruct e; [congruence|].
      rewrite length_app. simpl. lia.
    + destruct He as (Hne & _). destruct e; [congruence|].
      simpl in Hfuel. rewrite length_app in Hfuel. lia.
Qed.

(** [Clean] leaves a rooted path of plain elements alone. *)
Lemma Clean_rooted_path (es : list (list ascii)) :
  es <> [] -> Forall plain_element es ->
  Clean (string_of_list_ascii (rooted_path es)) = string_of_list_ascii (rooted_path es).
Proof.
  intros Hne Hes. destruct es as [|e es]; [congruence|].
  apply Forall_cons in Hes as [He Hes].
  unfold Clean. rewrite list_ascii_of_string_of_list_ascii.
  unfold rooted_path. cbn [fmap list_fmap concat].
  change (("/"%char :: e) ++ ?r) with ("/"%char :: (e ++ r)).
  cbn iota. change (is_sep "/"%char) with true. cbn iota.
  rewrite clean_loop_plain_element by (auto; apply (ends_element_rooted_path es)).
  rewrite bool_decide_eq_false_2 by (simpl; lia).
  rewrite (clean_loop_rooted_path es).
  - reflexivity.
  - exact Hes.
  - destruct He as (Hne' & _). destruct e; [congruence|]. simpl. lia.
  - destruct He as (Hne' & _). destruct e; [congruence|].
    rewrite length_app. cbn [length]. unfold rooted_path. lia.
Qed.

Lemma string_of_list_ascii_app (a b : list ascii) :
  string_of_list_ascii (a ++ b) = string_of_list_ascii a +:+ string_of_list_ascii b.
Proof. induction a as [|c a IH]; simpl; [reflexivity | rewrite IH; reflexivity]. Qed.

Lemma rooted_path_app (es es' : list (list ascii)) :
  rooted_path (es ++ es') = rooted_path es ++ rooted_path es'.
Proof. unfold rooted_path. rewrite fmap_app, concat_app. reflexivity. Qed.

(** With a HOME that is a rooted path of plain elements, the default
    kubeconfig is [$HOME/.kube/config], literally. *)
Lemma Join_home_kube_config (es : list (list ascii)) :
  es <> [] -> Forall plain_element es ->
  Join [string_of_list_ascii (rooted_path es); ".kube"; "config"]
  = string_of_list_ascii (rooted_path es) +:+ "/.kube/config".
Proof.
  intros Hne Hes.
  assert (Hhome : string_of_list_ascii (rooted_path es) <> "").
  { destruct es as [|e es]; [congruence|]. discriminate. }
  cbn [Join]. rewrite bool_decide_eq_true_2 by exact Hhome.
  cbn [strings_Join].
  assert (Hpath :
    string_of_list_ascii (rooted_path es) +:+ "/" +:+ ".kube" +:+ "/" +:+ "config"
    = string_of_list_ascii
        (rooted_path (es ++ [list_ascii_of_string ".kube"; list_ascii_of_string "config"]))).
  { rewrite rooted_path_app, string_of_list_ascii_app. reflexivity. }
  rewrite Hpath, Clean_rooted_path.
  - rewrite rooted_path_app, string_of_list_ascii_app. reflexivity.
  - destruct es; [congruence | discriminate].
  - apply Forall_app. split; [exact Hes|].
    repeat constructor; try discriminate;
      intros Hin; cbn in Hin;
      repeat (apply elem_of_cons in Hin as [Hin|Hin]; [discriminate Hin|]);
      inversion Hin.
Qed.

End filepath_proofs.

Module kubevirt_proofs.

Import kubevirt spec.

Section Client.

Context {W : Type} `{!Cluster W} `{!APIGroups}.

Variable resource : GroupVersionResource.
Variables namespace name : string.

Abbreviation loop fuel := (deleteResource_loop fuel namespace name resource).
Abbreviation after := (world_after_polls resource namespace name).
Abbreviation polls := (poll_calls resource namespace name).
Abbreviation exists_for := (still_exists resource namespace name).

(** The text of the error raised when the budget is used up. *)
Lemma budget_message :
  fmt_Errorf "Failed to delete resource %s, checked 5 times and the vm stil exists" [name]
  = errorString ("Failed to delete resource " +:+ name
                 +:+ ", checked 5 times and the vm stil exists").
Proof. reflexivity. Qed.

Lemma poll_calls_snoc (n : nat) :
  polls (S n) = polls n ++ [CallSleep (1 * Second); CallGet resource namespace name].
Proof.
  unfold poll_calls. rewrite replicate_S_end, concat_app. reflexivity.
Qed.

Lemma world_after_polls_snoc (n : nat) (w : W) :
  after (S n) w = snd (poll resource namespace name (after n w)).
Proof.
  revert w. induction n as [|n IH]; intros w; [reflexivity|].
  change (after (S (S n)) w) with (after (S n) (snd (poll resource namespace name w))).
  rewrite IH. reflexivity.
Qed.

Lemma still_exists_S (n : nat) (w : W) :
  exists_for (S n) w <->
  err_of (fst (poll resource namespace name w)) = None
  /\ exists_for n (snd (poll resource namespace name w)).
Proof.
  unfold still_exists. simpl.
  destruct (poll resource namespace name w) as [r w']. simpl.
  rewrite Forall_cons. reflexivity.
Qed.

(** One turn of the loop while the counter is below the budget. *)
Lemma loop_turn (fuel : nat) (counter : Z) (s : St W) :
  0 <= counter < 5 ->
  loop (S fuel) None counter s
  = loop fuel (err_of (fst (poll resource namespace name (world s)))) (counter + 1)
      (mkSt (snd (poll resource namespace name (world s)))
            (calls s ++ [CallSleep (1 * Second); CallGet resource namespace name])).
Proof.
  intros Hc. simpl.
  rewrite bool_decide_eq_false_2 by lia.
  unfold mbind, M_bind, Sleep, getResource, Get, poll. simpl.
  destruct (dynamic_Get resource namespace name (time_Sleep (1 * Second) (world s)))
    as [r w'] eqn:Hget. simpl.
  unfold int_add. rewrite wrap_int_small by (unfold int_min, int_max; lia).
  rewrite <- app_assoc. reflexivity.
Qed.

(** The loop stops with nil at the first turn that finds an error pending. *)
Lemma loop_error_pending (fuel : nat) (e : error) (counter : Z) (s : St W) :
  loop (S fuel) (Some e) counter s = (Returned None, s).
Proof. reflexivity. Qed.

(** The loop stops with the budget error when the counter has reached 5. *)
Lemma loop_budget (fuel : nat) (s : St W) :
  loop (S fuel) None 5 s
  = (Returned (Some (errorString ("Failed to delete resource " +:+ name
                                  +:+ ", checked 5 times and the vm stil exists"))), s).
Proof. reflexivity. Qed.

(** While the resource is still there, [n] turns are [n] polls. *)
Lemma loop_while_exists (n fuel : nat) (counter : Z) (s : St W) :
  0 <= counter -> counter + Z.of_nat n <= 5 ->
  exists_for n (world s) ->
  loop (n + fuel)%nat None counter s
  = loop fuel None (counter + Z.of_nat n)
      (mkSt (after n (world s)) (calls s ++ polls n)).
Proof.
  revert counter s. induction n as [|n IH]; intros counter s Hc Hn Hex.
  - simpl. rewrite Z.add_0_r, app_nil_r. destruct s; reflexivity.
  - apply still_exists_S in Hex as [Hfirst Hrest].
    change (S n + fuel)%nat with (S (n + fuel)).
    rewrite loop_turn by lia. rewrite Hfirst.
    rewrite IH by (simpl; auto; lia). simpl.
    rewrite <- app_assoc. simpl.
    replace (counter + 1 + Z.of_nat n) with (counter + Z.of_nat (S n)) by lia.
    reflexivity.
Qed.

(** The first poll that comes back with an error ends the loop with nil. *)
Lemma loop_stops_at_error (k fuel : nat) (e : error) (counter : Z) (s : St W) :
  0 <= counter -> counter + Z.of_nat k < 5 ->
  exists_for k (world s) ->
  fst (poll resource namespace name (after k (world s))) = inr e ->
  loop (k + S (S fuel))%nat None counter s
  = (Returned None, mkSt (after (S k) (world s)) (calls s ++ polls (S k))).
Proof.
  intros Hc Hk Hex He.
  rewrite loop_while_exists by (auto; lia).
  rewrite loop_turn by lia. cbn [world calls].
  rewrite He. cbn [err_of]. rewrite loop_error_pending.
  rewrite world_after_polls_snoc, poll_calls_snoc, app_assoc. reflexivity.
Qed.

(** Five polls that all find the resource use the budget up. *)
Lemma loop_exhausts_budget (fuel : nat) (s : St W) :
  exists_for 5 (world s) ->
  loop (5 + S fuel)%nat None 0 s
  = (Returned (Some (errorString ("Failed to delete resource " +:+ name
                                  +:+ ", checked 5 times and the vm stil exists"))),
     mkSt (after 5 (world s)) (calls s ++ polls 5)).
Proof.
  intros Hex. rewrite loop_while_exists by (auto; lia).
  change (0 + Z.of_nat 5) with 5. apply loop_budget.
Qed.

(** Whatever the cluster answers, the loop is over after at most as many
    polls as the budget has left. *)
Lemma loop_bounded (m fuel : nat) (counter : Z) (s : St W) :
  counter = 5 - Z.of_nat m -> (m <= 5)%nat -> (m < fuel)%nat ->
  exists (n : nat) (r : option error),
    (n <= m)%nat
    /\ loop fuel None counter s
       = (Returned r, mkSt (after n (world s)) (calls s ++ polls n))
    /\ (r = None
        \/ n = m /\
           r = Some (errorString ("Failed to delete resource " +:+ name
                                  +:+ ", checked 5 times and the vm stil exists"))).
Proof.
  revert fuel counter s. induction m as [|m IH]; intros fuel counter s Hc Hm Hf.
  - destruct fuel as [|fuel]; [lia|].
    exists 0%nat, (Some (errorString ("Failed to delete resource " +:+ name
                                      +:+ ", checked 5 times and the vm stil exists"))).
    replace counter with 5 by lia. rewrite loop_budget.
    unfold poll_calls. cbn [replicate concat after]. rewrite app_nil_r.
    destruct s; auto.
  - destruct fuel as [|fuel]; [lia|].
    rewrite loop_turn by lia.
    destruct (err_of (fst (poll resource namespace name (world s)))) as [e|] eqn:He.
    + destruct fuel as [|fuel]; [lia|]. rewrite loop_error_pending.
      exists 1%nat, None. split; [lia|]. split; [|auto].
      reflexivity.
    + destruct (IH fuel (counter + 1)
                  (mkSt (snd (poll resource namespace name (world s)))
                        (calls s ++ [CallSleep (1 * Second);
                                     CallGet resource namespace name])))
        as (n & r & Hn & Hrun & Hr); [lia | lia | lia |].
      exists (S n), r. split; [lia|]. split.
      * rewrite Hrun. cbn [world calls]. rewrite <- app_assoc. reflexivity.
      * destruct Hr as [Hr|[Hn' Hr]]; [auto | right; split; [lia | exact Hr]].
Qed.

(** After a delete that went through, waiting is the loop entered with no
    error pending and the counter at zero. *)
Lemma deleteResource_enters_loop (fuel : nat) (s : St W) (w1 : W) :
  dynamic_Delete resource namespace name (world s) = (None, w1) ->
  deleteResource fuel namespace name resource true s
  = loop fuel None 0 (mkSt w1 (calls s ++ [CallDelete resource namespace name])).
Proof.
  intros Hdel. unfold deleteResource, mbind, M_bind, Delete.
  rewrite Hdel. reflexivity.
Qed.

(** C1. With [wait] set and the delete call accepted, [deleteResource]
    returns nil as soon as a poll reports the resource absent (a not-found
    error at poll [k + 1] of at most five, after [k] polls that still saw
    it), having made exactly those [k + 1] polls; and after five polls that
    all still see the resource it returns the formatted error carrying the
    resource name. *)
Theorem deleteResource_wait_until_absent (fuel : nat) (s : St W) (w1 : W) :
  (6 <= fuel)%nat ->
  dynamic_Delete resource namespace name (world s) = (None, w1) ->
  (forall (k : nat) (e : error),
      (k < 5)%nat ->
      exists_for k w1 ->
      fst (poll resource namespace name (after k w1)) = inr e ->
      IsNotFound e = true ->
      deleteResource fuel namespace name resource true s
      = (Returned None,
         mkSt (after (S k) w1)
              (calls s ++ CallDelete resource namespace name :: polls (S k))))
  /\ (exists_for 5 w1 ->
      deleteResource fuel namespace name resource true s
      = (Returned (Some (errorString ("Failed to delete resource " +:+ name
                                      +:+ ", checked 5 times and the vm stil exists"))),
         mkSt (after 5 w1)
              (calls s ++ CallDelete resource namespace name :: polls 5))).
Proof.
  intros Hfuel Hdel. split.
  - intros k e Hk Hex He _.
    rewrite (deleteResource_enters_loop _ _ _ Hdel).
    replace fuel with (k + S (S (fuel - k - 2)))%nat by lia.
    rewrite (loop_stops_at_error k _ e) by (auto; cbn [world]; auto; lia).
    cbn [world calls]. rewrite <- app_assoc. reflexivity.
  - intros Hex.
    rewrite (deleteResource_enters_loop _ _ _ Hdel).
    replace fuel with (5 + S (fuel - 6))%nat by lia.
    rewrite loop_exhausts_budget by exact Hex.
    cbn [world calls]. rewrite <- app_assoc. reflexivity.
Qed.

(** The calls of [deleteResource] when the delete call is not followed by
    any waiting. *)
Lemma deleteResource_without_wait (fuel : nat) (wait : bool) (s : St W)
    (err : option error) (w1 : W) :
  dynamic_Delete resource namespace name (world s) = (err, w1) ->
  err <> None \/ wait = false ->
  deleteResource fuel namespace name resource wait s
  = (Returned err, mkSt w1 (calls s ++ [CallDelete resource namespace name])).
Proof.
  intros Hdel Hcase. unfold deleteResource, mbind, M_bind, Delete. rewrite Hdel.
  destruct err as [e|]; [reflexivity|].
  destruct Hcase as [Herr| ->]; [congruence | reflexivity].
Qed.

(** C5. Whatever the cluster answers, [deleteResource] terminates, and
    after the delete call it makes at most five polls, each a one-second
    sleep followed by one lookup; the wait loop ends either with nil or,
    after exactly five polls, with the budget error, and it is not entered
    at all when the delete call fails. *)
Theorem deleteResource_polls_at_most_five (fuel : nat) (wait : bool) (s : St W) :
  (6 <= fuel)%nat ->
  exists (n : nat) (r : option error),
    (n <= 5)%nat
    /\ deleteResource fuel namespace name resource wait s
       = (Returned r,
          mkSt (after n (dynamic_Delete resource namespace name (world s)).2)
               (calls s ++ CallDelete resource namespace name :: polls n))
    /\ polls n = concat (replicate n [CallSleep 1000000000;
                                      CallGet resource namespace name])
    /\ match (dynamic_Delete resource namespace name (world s)).1 with
       | Some e => n = 0%nat /\ r = Some e
       | None =>
           r = None
           \/ wait = true /\ n = 5%nat /\
              r = Some (errorString ("Failed to delete resource " +:+ name
                                     +:+ ", checked 5 times and the vm stil exists"))
       end.
Proof.
  intros Hfuel.
  destruct (dynamic_Delete resource namespace name (world s)) as [err w1] eqn:Hdel.
  cbn [fst snd].
  destruct err as [e|].
  { exists 0%nat, (Some e). split; [lia|]. split; [|split; [reflexivity | auto]].
    apply deleteResource_without_wait; [exact Hdel | left; discriminate]. }
  destruct wait.
  - rewrite (deleteResource_enters_loop _ _ _ Hdel).
    destruct (loop_bounded 5 fuel 0
                (mkSt w1 (calls s ++ [CallDelete resource namespace name])))
      as (n & r & Hn & Hrun & Hr); [reflexivity | lia | lia |].
    exists n, r. split; [exact Hn|]. split; [|split; [reflexivity|]].
    + rewrite Hrun. cbn [world calls]. rewrite <- app_assoc. reflexivity.
    + destruct Hr as [Hr|[Hn5 Hr]]; [left; exact Hr | right; auto].
  - exists 0%nat, None. split; [lia|]. split; [|split; [reflexivity | auto]].
    apply deleteResource_without_wait; [exact Hdel | right; reflexivity].
Qed.

(** C9. Any error of the existence check ends the wait with nil, whatever
    the error is: no not-found test is made on it. *)
Theorem deleteResource_any_get_error_ends_wait
    (fuel : nat) (s : St W) (w1 : W) (k : nat) (e : error) :
  (6 <= fuel)%nat ->
  dynamic_Delete resource namespace name (world s) = (None, w1) ->
  (k < 5)%nat ->
  exists_for k w1 ->
  fst (poll resource namespace name (after k w1)) = inr e ->
  deleteResource fuel namespace name resource true s
  = (Returned None,
     mkSt (after (S k) w1)
          (calls s ++ CallDelete resource namespace name :: polls (S k))).
Proof.
  intros Hfuel Hdel Hk Hex He.
  rewrite (deleteResource_enters_loop _ _ _ Hdel).
  replace fuel with (k + S (S (fuel - k - 2)))%nat by lia.
  rewrite (loop_stops_at_error k _ e) by (auto; cbn [world]; auto; lia).
  cbn [world calls]. rewrite <- app_assoc. reflexivity.
Qed.

(** C4. Errors of the cluster calls come back as they are: a failed delete
    call makes [deleteResource] return that very error after the single
    delete call, with no sleep and no lookup, whether or not [wait] is set;
    a failed list call makes [listResource] return no names and that very
    error. *)
Theorem cluster_errors_propagate_verbatim :
  (forall (fuel : nat) (wait : bool) (s : St W) (err : error) (w1 : W),
      dynamic_Delete resource namespace name (world s) = (Some err, w1) ->
      deleteResource fuel namespace name resource wait s
      = (Returned (Some err),
         mkSt w1 (calls s ++ [CallDelete resource namespace name])))
  /\ (forall (requiredLabels : gmap string string) (s : St W) (err : error) (w1 : W),
      dynamic_List resource namespace (world s) = (inr err, w1) ->
      listResource namespace requiredLabels resource s
      = (([], Some err), mkSt w1 (calls s ++ [CallList resource namespace]))).
Proof.
  split.
  - intros fuel wait s err w1 Hdel.
    unfold deleteResource, mbind, M_bind, Delete. rewrite Hdel. reflexivity.
  - intros requiredLabels s err w1 Hlist.
    unfold listResource, mbind, M_bind, List. rewrite Hlist. reflexivity.
Qed.

End Client.

Section Listing.

Context {W : Type} `{!Cluster W} `{!APIGroups}.

(** The label loop appends the name when some pair it visits is carried by
    the resource. *)
Lemma listResource_labels_hit (kvs : list (string * string))
    (existLabels : gmap string string) (name : string) (result : list string) :
  (exists k v, (k, v) ∈ kvs /\ existLabels !! k = Some v) ->
  listResource_labels kvs existLabels name result = result ++ [name].
Proof.
  induction kvs as [|[k' v'] kvs IH]; intros (k & v & Hin & Hlook).
  - inversion Hin.
  - simpl. destruct (existLabels !! k') as [existVal|] eqn:Hk'.
    + case_bool_decide as Heq; [reflexivity|].
      apply IH. apply elem_of_cons in Hin as [Hhd|Htl]; [|eauto].
      injection Hhd as -> ->. congruence.
    + apply IH. apply elem_of_cons in Hin as [Hhd|Htl]; [|eauto].
      injection Hhd as -> ->. congruence.
Qed.

(** It leaves the result alone when no pair it visits is carried. *)
Lemma listResource_labels_miss (kvs : list (string * string))
    (existLabels : gmap string string) (name : string) (result : list string) :
  ~ (exists k v, (k, v) ∈ kvs /\ existLabels !! k = Some v) ->
  listResource_labels kvs existLabels name result = result.
Proof.
  induction kvs as [|[k' v'] kvs IH]; intros Hnone; [reflexivity|].
  simpl. destruct (existLabels !! k') as [existVal|] eqn:Hk'.
  - case_bool_decide as Heq.
    + exfalso. apply Hnone. exists k', v'. split; [left | congruence].
    + apply IH. intros (k & v & Hin & Hlook). apply Hnone.
      exists k, v. split; [right; exact Hin | exact Hlook].
  - apply IH. intros (k & v & Hin & Hlook). apply Hnone.
    exists k, v. split; [right; exact Hin | exact Hlook].
Qed.

(** The order in which the runtime hands out the pairs of the map does not
    show in the result. *)
Lemma listResource_labels_order_irrelevant (kvs kvs' : list (string * string))
    (existLabels : gmap string string) (name : string) (result : list string) :
  kvs ≡ₚ kvs' ->
  listResource_labels kvs existLabels name result
  = listResource_labels kvs' existLabels name result.
Proof.
  intros Hperm.
  destruct (decide (Exists (fun kv => existLabels !! kv.1 = Some kv.2) kvs)) as [Hhit|Hmiss].
  - apply Exists_exists in Hhit as ([k v] & Hin & Hlook).
    rewrite !listResource_labels_hit; [reflexivity | | ]; exists k, v; split; auto.
    rewrite <- Hperm. exact Hin.
  - rewrite !listResource_labels_miss; [reflexivity | | ];
      intros (k & v & Hin & Hlook); apply Hmiss, Exists_exists;
      exists (k, v); split; auto.
    rewrite Hperm. exact Hin.
Qed.

(** One resource of the list: its name is appended exactly when it is in
    the namespace and carries one of the required labels. *)
Lemma listResource_item_spec (namespace : string) (requiredLabels : gmap string string)
    (result : list string) (d : Unstructured) :
  listResource_item namespace requiredLabels result d
  = result ++
    (if decide (GetNamespace d = namespace /\
                label_any_match requiredLabels (GetLabels d))
     then [GetName d] else []).
Proof.
  unfold listResource_item. case_bool_decide as Hns.
  - rewrite decide_False by tauto. rewrite app_nil_r. reflexivity.
  - destruct (decide (label_any_match requiredLabels (GetLabels d))) as [Hany|Hany].
    + rewrite decide_True by tauto.
      apply listResource_labels_hit.
      destruct Hany as (k & v & Hreq & Hlab). exists k, v.
      split; [apply elem_of_map_to_list; exact Hreq | exact Hlab].
    + rewrite decide_False by tauto. rewrite app_nil_r.
      apply listResource_labels_miss.
      intros (k & v & Hin & Hlab). apply Hany. exists k, v.
      split; [apply elem_of_map_to_list; exact Hin | exact Hlab].
Qed.

(** The loop over the items is list-then-filter. *)
Lemma listResource_items_spec (namespace : string) (requiredLabels : gmap string string)
    (items : list Unstructured) (result : list string) :
  foldl (listResource_item namespace requiredLabels) result items
  = result ++ names_matching_any namespace requiredLabels items.
Proof.
  revert result. induction items as [|d items IH]; intros result.
  - simpl. rewrite app_nil_r. reflexivity.
  - simpl. rewrite IH, listResource_item_spec.
    unfold names_matching_any. rewrite filter_cons.
    destruct (decide (GetNamespace d = namespace /\
                      label_any_match requiredLabels (GetLabels d))).
    + rewrite <- app_assoc. reflexivity.
    + rewrite app_nil_r. reflexivity.
Qed.

(** What a successful list call makes of [listResource]. *)
Lemma listResource_listed (namespace : string) (requiredLabels : gmap string string)
    (resource : GroupVersionResource) (s : St W) (listed : UnstructuredList) (w1 : W) :
  dynamic_List resource namespace (world s) = (inl listed, w1) ->
  listResource namespace requiredLabels resource s
  = ((names_matching_any namespace requiredLabels (Items listed), None),
     mkSt w1 (calls s ++ [CallList resource namespace])).
Proof.
  intros Hlist. unfold listResource, mbind, M_bind, List. rewrite Hlist.
  cbn [mret M_ret]. rewrite listResource_items_spec. reflexivity.
Qed.

Lemma elem_of_names_matching_any (namespace : string)
    (requiredLabels : gmap string string) (items : list Unstructured) (n : string) :
  n ∈ names_matching_any namespace requiredLabels items <->
  exists d, d ∈ items /\ GetName d = n /\ GetNamespace d = namespace
            /\ label_any_match requiredLabels (GetLabels d).
Proof.
  unfold names_matching_any. rewrite list_elem_of_fmap. split.
  - intros (d & -> & Hd). apply list_elem_of_filter in Hd as [[Hns Hany] Hin]. eauto.
  - intros (d & Hin & Hn & Hns & Hany). exists d. split; [auto|].
    apply list_elem_of_filter. auto.
Qed.

Lemma label_any_match_empty (existLabels : gmap string string) :
  ~ label_any_match ∅ existLabels.
Proof. intros (k & v & Hk & _). rewrite lookup_empty in Hk. discriminate. Qed.

Lemma names_matching_any_empty (namespace : string) (items : list Unstructured) :
  names_matching_any namespace ∅ items = [].
Proof.
  unfold names_matching_any. induction items as [|d items IH]; [reflexivity|].
  rewrite filter_cons, decide_False; [exact IH|].
  intros [_ Hany]. exact (label_any_match_empty _ Hany).
Qed.

(** C6, as the code has it. When the list call succeeds,
    [ListVirtualMachineNames], [ListDataVolumeNames] and [ListSecretNames]
    return, in list order, the names of the listed resources of their kind
    that are in the namespace and carry at least one of the required labels
    with an equal value, and no error. *)
Theorem list_names_any_required_label (namespace : string)
    (requiredLabels : gmap string string) (s : St W) (listed : UnstructuredList) (w1 : W) :
  (dynamic_List vmRes namespace (world s) = (inl listed, w1) ->
   ListVirtualMachineNames namespace requiredLabels s
   = ((names_matching_any namespace requiredLabels (Items listed), None),
      mkSt w1 (calls s ++ [CallList vmRes namespace])))
  /\ (dynamic_List dvRes namespace (world s) = (inl listed, w1) ->
      ListDataVolumeNames namespace requiredLabels s
      = ((names_matching_any namespace requiredLabels (Items listed), None),
         mkSt w1 (calls s ++ [CallList dvRes namespace])))
  /\ (dynamic_List secretRes namespace (world s) = (inl listed, w1) ->
      ListSecretNames namespace requiredLabels s
      = ((names_matching_any namespace requiredLabels (Items listed), None),
         mkSt w1 (calls s ++ [CallList secretRes namespace]))).
Proof.
  repeat split; intros Hlist; apply listResource_listed; exact Hlist.
Qed.

(** C8, as the code has it. [listResource] looks at the labels of the
    resources of the requested namespace only, and takes one of them when
    at least one required label is found on it with an equal value: for
    every listed resource, its round of the loop appends the name exactly
    when the resource is in the namespace and carries one of the required
    labels, and leaves the result alone otherwise; a name is in the result
    exactly when a listed resource of the namespace with that name carries
    one of the required labels; and with no required labels the result is
    empty whatever was listed. *)
Theorem listResource_any_match_semantics (namespace : string)
    (requiredLabels : gmap string string) (resource : GroupVersionResource)
    (s : St W) (listed : UnstructuredList) (w1 : W) :
  dynamic_List resource namespace (world s) = (inl listed, w1) ->
  (forall (d : Unstructured) (result : list string),
      d ∈ Items listed ->
      (GetNamespace d = namespace /\ label_any_match requiredLabels (GetLabels d) ->
       listResource_item namespace requiredLabels result d = result ++ [GetName d])
      /\ (GetNamespace d <> namespace \/ ~ label_any_match requiredLabels (GetLabels d) ->
          listResource_item namespace requiredLabels result d = result))
  /\ (forall n : string,
      n ∈ (listResource namespace requiredLabels resource s).1.1 <->
      exists d, d ∈ Items listed /\ GetName d = n /\ GetNamespace d = namespace
                /\ label_any_match requiredLabels (GetLabels d))
  /\ (requiredLabels = ∅ ->
      (listResource namespace requiredLabels resource s).1 = ([], None)).
Proof.
  intros Hlist. split; [|split].
  - intros d result _. rewrite listResource_item_spec. split; intros Hcase.
    + rewrite decide_True by exact Hcase. reflexivity.
    + rewrite decide_False by tauto. apply app_nil_r.
  - intros n. rewrite (listResource_listed _ _ _ _ _ _ Hlist). cbn [fst].
    apply elem_of_names_matching_any.
  - intros ->. rewrite (listResource_listed _ _ _ _ _ _ Hlist). cbn [fst].
    rewrite names_matching_any_empty. reflexivity.
Qed.

End Listing.

(** With the variable named by [kubeConfigEnvName] set to a file name, that
    file is read. *)
Lemma LoadKubeConfigContent_named (pkg : Package) (os : OS) (filename : string) :
  environ os !! kubeConfigEnvName pkg = Some filename -> filename <> "" ->
  LoadKubeConfigContent pkg os = ioutil_ReadFile os filename.
Proof.
  intros Henv Hne. unfold LoadKubeConfigContent, os_Getenv. rewrite Henv. cbn [default].
  rewrite bool_decide_eq_false_2 by exact Hne. reflexivity.
Qed.

(** With that variable empty or not set, the default file is read. *)
Lemma LoadKubeConfigContent_default (pkg : Package) (os : OS) :
  os_Getenv os (kubeConfigEnvName pkg) = "" ->
  LoadKubeConfigContent pkg os = ioutil_ReadFile os (kubeConfigDefaultFilename pkg).
Proof.
  intros Henv. unfold LoadKubeConfigContent. rewrite Henv. reflexivity.
Qed.

Lemma os_Getenv_unset_or_empty (os : OS) (key : string) :
  environ os !! key = None \/ environ os !! key = Some "" ->
  os_Getenv os key = "".
Proof. unfold os_Getenv. intros [Henv|Henv]; rewrite Henv; reflexivity. Qed.

Section KubeConfig.

Variable filepath_Join : list string -> string.

(** C7. [LoadKubeConfigContent] reads the file named by KUBECONFIG, and
    when that variable is unset or empty it reads the default file, which
    package initialisation joined from the HOME of the starting
    environment, [.kube] and [config]. *)
Theorem LoadKubeConfigContent_reads_kubeconfig (os0 os : OS) :
  (forall filename : string,
      environ os !! "KUBECONFIG" = Some filename -> filename <> "" ->
      LoadKubeConfigContent (package_init filepath_Join os0) os
      = ioutil_ReadFile os filename)
  /\ (environ os !! "KUBECONFIG" = None \/ environ os !! "KUBECONFIG" = Some "" ->
      LoadKubeConfigContent (package_init filepath_Join os0) os
      = ioutil_ReadFile os (filepath_Join [os_Getenv os0 "HOME"; ".kube"; "config"])).
Proof.
  split.
  - intros filename Henv Hne. apply LoadKubeConfigContent_named; assumption.
  - intros Henv. apply LoadKubeConfigContent_default.
    apply os_Getenv_unset_or_empty. exact Henv.
Qed.

End KubeConfig.

(** On Unix, with a HOME that is a rooted path of plain elements and no
    KUBECONFIG, the file read is [$HOME/.kube/config], literally. *)
Lemma LoadKubeConfigContent_default_on_unix (os : OS) (es : list (list ascii)) :
  es <> [] -> Forall filepath.plain_element es ->
  environ os !! "HOME" = Some (string_of_list_ascii (filepath.rooted_path es)) ->
  environ os !! "KUBECONFIG" = None \/ environ os !! "KUBECONFIG" = Some "" ->
  LoadKubeConfigContent (package_init filepath.Join os) os
  = ioutil_ReadFile os (string_of_list_ascii (filepath.rooted_path es) +:+ "/.kube/config").
Proof.
  intros Hne Hes Hhome Henv.
  rewrite LoadKubeConfigContent_default
    by (apply os_Getenv_unset_or_empty; exact Henv).
  unfold package_init, os_Getenv. cbn [kubeConfigDefaultFilename].
  rewrite Hhome. cbn [default from_option]. unfold id.
  rewrite filepath_proofs.Join_home_kube_config by assumption. reflexivity.
Qed.

Import fixtures.

Lemma deleteResource_wait_until_absent_witness :
  deleteResource 6 "infra" "worker-0" vm true (start gone_at_second_poll)
  = (Returned None,
     mkSt (world_after_polls vm "infra" "worker-0" 2 gone_at_second_poll)
          ([] ++ CallDelete vm "infra" "worker-0" :: poll_calls vm "infra" "worker-0" 2))
  /\ deleteResource 6 "infra" "worker-0" vm true (start never_gone)
     = (Returned (Some (errorString
          "Failed to delete resource worker-0, checked 5 times and the vm stil exists")),
        mkSt (world_after_polls vm "infra" "worker-0" 5 never_gone)
             ([] ++ CallDelete vm "infra" "worker-0" :: poll_calls vm "infra" "worker-0" 5)).
Proof.
  split.
  - apply (proj1 (deleteResource_wait_until_absent vm "infra" "worker-0" 6
                    (start gone_at_second_poll) gone_at_second_poll
                    ltac:(lia) eq_refl)
             1%nat (notFound "worker-0")).
    + lia.
    + repeat constructor.
    + reflexivity.
    + reflexivity.
  - apply (proj2 (deleteResource_wait_until_absent vm "infra" "worker-0" 6
                    (start never_gone) never_gone ltac:(lia) eq_refl)).
    repeat constructor.
Defined.

Lemma deleteResource_polls_at_most_five_witness :
  exists (n : nat) (r : option error),
    (n <= 5)%nat
    /\ deleteResource 6 "infra" "worker-0" vm true (start never_gone)
       = (Returned r,
          mkSt (world_after_polls vm "infra" "worker-0" n
                  (dynamic_Delete vm "infra" "worker-0" never_gone).2)
               ([] ++ CallDelete vm "infra" "worker-0" :: poll_calls vm "infra" "worker-0" n))
    /\ poll_calls vm "infra" "worker-0" n
       = concat (replicate n [CallSleep 1000000000; CallGet vm "infra" "worker-0"])
    /\ match (dynamic_Delete vm "infra" "worker-0" never_gone).1 with
       | Some e => n = 0%nat /\ r = Some e
       | None =>
           r = None
           \/ true = true /\ n = 5%nat /\
              r = Some (errorString ("Failed to delete resource " +:+ "worker-0"
                                     +:+ ", checked 5 times and the vm stil exists"))
       end.
Proof.
  apply (deleteResource_polls_at_most_five vm "infra" "worker-0" 6 true (start never_gone)).
  lia.
Defined.

(** The wait that runs into the budget, call by call. *)
Example deleteResource_five_polls :
  (deleteResource 6 "infra" "worker-0" vm true (start never_gone)).1
    = Returned (Some (errorString
        "Failed to delete resource worker-0, checked 5 times and the vm stil exists"))
  /\ calls (deleteResource 6 "infra" "worker-0" vm true (start never_gone)).2
     = [CallDelete vm "infra" "worker-0";
        CallSleep 1000000000; CallGet vm "infra" "worker-0";
        CallSleep 1000000000; CallGet vm "infra" "worker-0";
        CallSleep 1000000000; CallGet vm "infra" "worker-0";
        CallSleep 1000000000; CallGet vm "infra" "worker-0";
        CallSleep 1000000000; CallGet vm "infra" "worker-0"]
  /\ clock (world (deleteResource 6 "infra" "worker-0" vm true (start never_gone)).2)
     = 5 * Second.
Proof. vm_compute. repeat split. Qed.

Lemma deleteResource_any_get_error_ends_wait_witness :
  IsNotFound forbidden = false
  /\ deleteResource 6 "infra" "worker-0" vm true (start refused_at_third_poll)
     = (Returned None,
        mkSt (world_after_polls vm "infra" "worker-0" 3 refused_at_third_poll)
             ([] ++ CallDelete vm "infra" "worker-0" :: poll_calls vm "infra" "worker-0" 3)).
Proof.
  split; [reflexivity|].
  apply (deleteResource_any_get_error_ends_wait vm "infra" "worker-0" 6
           (start refused_at_third_poll) refused_at_third_poll 2 forbidden).
  - lia.
  - reflexivity.
  - lia.
  - repeat constructor.
  - reflexivity.
Defined.

Lemma cluster_errors_propagate_verbatim_witness :
  (forall wait : bool,
      deleteResource 0 "infra" "worker-0" vm wait (start delete_refused)
      = (Returned (Some forbidden),
         mkSt delete_refused ([] ++ [CallDelete vm "infra" "worker-0"])))
  /\ listResource "infra" workers_of_c1 vm (start delete_refused)
     = (([], Some unavailable), mkSt delete_refused ([] ++ [CallList vm "infra"])).
Proof.
  split.
  - intros wait.
    apply (proj1 (cluster_errors_propagate_verbatim vm "infra" "worker-0")
             0%nat wait (start delete_refused) forbidden delete_refused).
    reflexivity.
  - apply (proj2 (cluster_errors_propagate_verbatim vm "infra" "worker-0")
             workers_of_c1 (start delete_refused) unavailable delete_refused).
    reflexivity.
Defined.

(** C6 as stated fails when a match on the required labels is what a label
    selector means by it. Asked for the machines labelled both [cluster=c1]
    and [role=worker], the wrapper also returns the master, which carries
    only one of the two; asked with no required labels it returns nothing,
    though four machines of the namespace match vacuously. *)
Lemma list_names_not_a_label_selector :
  (ListVirtualMachineNames "infra" workers_of_c1 (start listing)).1.1
    = ["master-0"; "worker-0"]
  /\ names_matching_all "infra" workers_of_c1 listed_machines = ["worker-0"]
  /\ (ListVirtualMachineNames "infra" ∅ (start listing)).1.1 = []
  /\ names_matching_all "infra" ∅ listed_machines
     = ["master-0"; "worker-0"; "other-0"; "bare-0"]
  /\ (ListVirtualMachineNames "infra" workers_of_c1 (start listing)).1.1
     <> names_matching_all "infra" workers_of_c1 listed_machines.
Proof. vm_compute. repeat split; discriminate. Qed.

Lemma list_names_any_required_label_witness :
  ListVirtualMachineNames "infra" workers_of_c1 (start listing)
  = ((names_matching_any "infra" workers_of_c1 listed_machines, None),
     mkSt listing ([] ++ [CallList vmRes "infra"]))
  /\ ListDataVolumeNames "infra" workers_of_c1 (start listing)
     = ((names_matching_any "infra" workers_of_c1 listed_machines, None),
        mkSt listing ([] ++ [CallList dvRes "infra"]))
  /\ ListSecretNames "infra" workers_of_c1 (start listing)
     = ((names_matching_any "infra" workers_of_c1 listed_machines, None),
        mkSt listing ([] ++ [CallList secretRes "infra"])).
Proof.
  pose proof (list_names_any_required_label "infra" workers_of_c1 (start listing)
                {| Items := listed_machines |} listing) as (Hvm & Hdv & Hsecret).
  split; [apply Hvm; reflexivity | split; [apply Hdv | apply Hsecret]; reflexivity].
Defined.

(** C8 as stated fails for a listed resource outside the requested
    namespace: [worker-9] of namespace [elsewhere] is in the listing and
    carries both required labels, yet asking for namespace [infra] does not
    return its name, so "included if and only if a required label matches"
    does not hold for every listed resource. *)
Lemma listResource_passes_over_other_namespaces :
  object "elsewhere" "worker-9" [("cluster", "c1"); ("role", "worker")] ∈ listed_machines
  /\ label_any_match workers_of_c1
       (GetLabels (object "elsewhere" "worker-9" [("cluster", "c1"); ("role", "worker")]))
  /\ (listResource "infra" workers_of_c1 vm (start listing)).1.1 = ["master-0"; "worker-0"]
  /\ ("worker-9" ∉ (listResource "infra" workers_of_c1 vm (start listing)).1.1)
  /\ ~ (forall d : Unstructured,
          d ∈ listed_machines ->
          (GetName d ∈ (listResource "infra" workers_of_c1 vm (start listing)).1.1
           <-> label_any_match workers_of_c1 (GetLabels d))).
Proof.
  assert (Hin : object "elsewhere" "worker-9" [("cluster", "c1"); ("role", "worker")]
                ∈ listed_machines).
  { unfold listed_machines. rewrite !elem_of_cons. auto 10. }
  assert (Hany : label_any_match workers_of_c1
                   (GetLabels (object "elsewhere" "worker-9"
                                 [("cluster", "c1"); ("role", "worker")]))).
  { exists "cluster", "c1". split; reflexivity. }
  assert (Hnames : (listResource "infra" workers_of_c1 vm (start listing)).1.1
                   = ["master-0"; "worker-0"]) by (vm_compute; reflexivity).
  assert (Hout : "worker-9" ∉ (listResource "infra" workers_of_c1 vm (start listing)).1.1).
  { rewrite Hnames. intros Hmem.
    repeat (apply elem_of_cons in Hmem as [Hmem|Hmem]; [discriminate Hmem|]).
    inversion Hmem. }
  repeat split; try assumption.
  intros Hall. apply Hout. exact (proj2 (Hall _ Hin) Hany).
Qed.

Lemma listResource_any_match_semantics_witness :
  (forall n : string,
      n ∈ (listResource "infra" workers_of_c1 vm (start listing)).1.1 <->
      exists d, d ∈ listed_machines /\ GetName d = n /\ GetNamespace d = "infra"
                /\ label_any_match workers_of_c1 (GetLabels d))
  /\ (listResource "infra" ∅ vm (start listing)).1 = ([], None).
Proof.
  split.
  - refine (proj1 (proj2 (listResource_any_match_semantics "infra" workers_of_c1 vm
                            (start listing) {| Items := listed_machines |} listing _))).
    reflexivity.
  - refine (proj2 (proj2 (listResource_any_match_semantics "infra" ∅ vm
                            (start listing) {| Items := listed_machines |} listing _)) _);
      reflexivity.
Defined.

Lemma LoadKubeConfigContent_reads_kubeconfig_witness :
  LoadKubeConfigContent (package_init filepath.Join with_kubeconfig) with_kubeconfig
  = ioutil_ReadFile with_kubeconfig "/tmp/admin.kubeconfig"
  /\ LoadKubeConfigContent (package_init filepath.Join without_kubeconfig) without_kubeconfig
     = ioutil_ReadFile without_kubeconfig
         (filepath.Join [os_Getenv without_kubeconfig "HOME"; ".kube"; "config"])
  /\ LoadKubeConfigContent (package_init filepath.Join empty_kubeconfig) empty_kubeconfig
     = ioutil_ReadFile empty_kubeconfig
         (filepath.Join [os_Getenv empty_kubeconfig "HOME"; ".kube"; "config"]).
Proof.
  split; [|split].
  - apply (proj1 (LoadKubeConfigContent_reads_kubeconfig filepath.Join with_kubeconfig
                    with_kubeconfig) "/tmp/admin.kubeconfig").
    + reflexivity.
    + discriminate.
  - apply (proj2 (LoadKubeConfigContent_reads_kubeconfig filepath.Join without_kubeconfig
                    without_kubeconfig)).
    left. reflexivity.
  - apply (proj2 (LoadKubeConfigContent_reads_kubeconfig filepath.Join empty_kubeconfig
                    empty_kubeconfig)).
    right. reflexivity.
Defined.

(** On a machine whose HOME is [/home/core]: the file named by KUBECONFIG
    when it is set, [/home/core/.kube/config] when it is unset or empty. *)
Example LoadKubeConfigContent_on_a_machine :
  LoadKubeConfigContent (package_init filepath.Join with_kubeconfig) with_kubeconfig
    = (kubeconfig_bytes, None)
  /\ filepath.Join [os_Getenv without_kubeconfig "HOME"; ".kube"; "config"]
     = "/home/core/.kube/config"
  /\ LoadKubeConfigContent (package_init filepath.Join without_kubeconfig) without_kubeconfig
     = (default_bytes, None)
  /\ LoadKubeConfigContent (package_init filepath.Join empty_kubeconfig) empty_kubeconfig
     = (default_bytes, None).
Proof. vm_compute. repeat split. Qed.

End kubevirt_proofs.


(** * Further properties of the code *)

#[local] Set Warnings "-clear-no-such-hyp".

Module validation_more.

Import validation validation_proofs.

Section WithQuantity.

Context {Quantity : Type}.
Variable ParseQuantity : string -> Quantity + error.
Variable Sign : Quantity -> Z.

(** A quantity string does not parse, or parses to a quantity whose sign is
    not 1, or parses to one whose sign is 1. *)
Lemma judge (s : string) :
  {e | ParseQuantity s = inr e}
  + {q | ParseQuantity s = inl q /\ Sign q <> 1}
  + {q | ParseQuantity s = inl q /\ Sign q = 1}.
Proof.
  destruct (ParseQuantity s) as [q|e] eqn:Hq.
  - destruct (decide (Sign q = 1)); [right | left; right]; exists q; auto.
  - left. left. exists e. reflexivity.
Qed.

(** X1. The validation passes a pool exactly when it is valid: the error
    list is empty if and only if the CPU count is positive and the storage
    size and the memory both parse to a quantity of sign 1. *)
Theorem ValidateMachinePool_empty_iff_valid (p : MachinePool) (fldPath : Path) :
  ValidateMachinePool ParseQuantity Sign p fldPath = [] <->
  0 < CPU p
  /\ positive_quantity ParseQuantity Sign (StorageSize p)
  /\ positive_quantity ParseQuantity Sign (Memory p).
Proof.
  unfold ValidateMachinePool, positive_quantity.
  destruct (decide (CPU p <= 0)) as [Hc|Hc];
    [rewrite (bool_decide_eq_true_2 _ Hc) | rewrite (bool_decide_eq_false_2 _ Hc)];
  (destruct (judge (StorageSize p)) as [[[es Hs]|[qs [Hs Hss]]]|[qs [Hs Hss]]]; rewrite Hs;
     [ | rewrite (bool_decide_eq_true_2 _ Hss)
       | rewrite (bool_decide_eq_false_2 (Sign qs <> 1)) by tauto ]);
  (destruct (judge (Memory p)) as [[[em Hm]|[qm [Hm Hms]]]|[qm [Hm Hms]]]; rewrite Hm;
     [ | rewrite (bool_decide_eq_true_2 _ Hms)
       | rewrite (bool_decide_eq_false_2 (Sign qm <> 1)) by tauto ]);
  cbn [app]; (split; [intros Hnil; try discriminate Hnil | intros (H1 & (q1 & Hq1 & Hs1) & (q2 & Hq2 & Hs2)); try lia; try congruence]).
  repeat split; eauto; lia.
Qed.

(** X2. Every error the validation returns is one of five: it names the
    child path of its field under the given path, carries the offending
    value as the pool has it, and says that a quantity string is of the
    wrong format exactly when it does not parse, and that it must be
    positive exactly when it parses to a quantity whose sign is not 1. *)
Theorem ValidateMachinePool_errors_characterised (p : MachinePool) (fldPath : Path)
    (e : FieldError) :
  e ∈ ValidateMachinePool ParseQuantity Sign p fldPath <->
  (CPU p <= 0
   /\ e = Invalid (Child fldPath "cpu") (BadInt (CPU p)) "CPU must be positive")
  \/ ((exists err, ParseQuantity (StorageSize p) = inr err)
      /\ e = Invalid (Child fldPath "storage") (BadString (StorageSize p))
               "Storage size must be of Quantity type format")
  \/ ((exists q, ParseQuantity (StorageSize p) = inl q /\ Sign q <> 1)
      /\ e = Invalid (Child fldPath "storage") (BadString (StorageSize p))
               "Storage size must be positive value")
  \/ ((exists err, ParseQuantity (Memory p) = inr err)
      /\ e = Invalid (Child fldPath "memory") (BadString (Memory p))
               "Memory must be of Quantity type format")
  \/ ((exists q, ParseQuantity (Memory p) = inl q /\ Sign q <> 1)
      /\ e = Invalid (Child fldPath "memory") (BadString (Memory p))
               "Memory must be positive value").
Proof.
  unfold ValidateMachinePool.
  destruct (decide (CPU p <= 0)) as [Hc|Hc];
    [rewrite (bool_decide_eq_true_2 _ Hc) | rewrite (bool_decide_eq_false_2 _ Hc)];
  (destruct (judge (StorageSize p)) as [[[es Hs]|[qs [Hs Hss]]]|[qs [Hs Hss]]]; rewrite Hs;
     [ | rewrite (bool_decide_eq_true_2 _ Hss)
       | rewrite (bool_decide_eq_false_2 (Sign qs <> 1)) by tauto ]);
  (destruct (judge (Memory p)) as [[[em Hm]|[qm [Hm Hms]]]|[qm [Hm Hms]]]; rewrite Hm;
     [ | rewrite (bool_decide_eq_true_2 _ Hms)
       | rewrite (bool_decide_eq_false_2 (Sign qm <> 1)) by tauto ]);
  cbn [app]; rewrite ?elem_of_cons, ?elem_of_nil; naive_solver.
Qed.

End WithQuantity.
End validation_more.

Module admin_more.

Import admin.

(** X3. The two enum tables are inverse to each other: [StorageType_name]
    sends a number to a name exactly when [StorageType_value] sends that
    name back to that number. *)
Theorem StorageType_tables_inverse (n : Z) (s : string) :
  StorageType_name !! n = Some s <-> StorageType_value !! s = Some n.
Proof.
  unfold StorageType_name, StorageType_value.
  rewrite !lookup_insert_Some, !lookup_singleton_Some.
  naive_solver.
Qed.

Section Runtime.

Context {FileDescriptor EnumInfo MessageInfoData : Type}.
Variable UnsafeEnabled : bool.
Variable CompressGZIP : list Byte.byte -> list Byte.byte.
Variable PkgPath : string.
Variable Build : @TypeBuilder EnumInfo MessageInfoData
                 -> @Built FileDescriptor EnumInfo MessageInfoData.
Variable zeroEnumInfo : EnumInfo.
Variable zeroMessageInfoData : MessageInfoData.

Abbreviation State := (@PackageState FileDescriptor EnumInfo MessageInfoData).
Abbreviation rawDescGZIP :=
  (@file_google_bigtable_admin_v2_common_proto_rawDescGZIP
     FileDescriptor EnumInfo MessageInfoData CompressGZIP).
Abbreviation once := file_google_bigtable_admin_v2_common_proto_rawDescOnce.
Abbreviation data := file_google_bigtable_admin_v2_common_proto_rawDescData.
Abbreviation rawDesc := file_google_bigtable_admin_v2_common_proto_rawDesc.
Abbreviation run_init := (init UnsafeEnabled PkgPath Build).
Abbreviation calls := (package_calls UnsafeEnabled CompressGZIP PkgPath Build).
Abbreviation vars := (@package_vars FileDescriptor EnumInfo MessageInfoData
                        zeroEnumInfo zeroMessageInfoData).

(** X4. [rawDescGZIP] compresses once: the first call answers the
    compressed bytes and stores them, every later call answers the stored
    bytes and changes nothing, and no call touches the raw descriptor or
    the file descriptor. *)
Theorem rawDescGZIP_compresses_once (st : State) :
  let r := file_google_bigtable_admin_v2_common_proto_rawDescGZIP CompressGZIP st in
  file_google_bigtable_admin_v2_common_proto_rawDescGZIP CompressGZIP r.2 = r
  /\ r.1 = (if file_google_bigtable_admin_v2_common_proto_rawDescOnce st
            then file_google_bigtable_admin_v2_common_proto_rawDescData st
            else CompressGZIP (file_google_bigtable_admin_v2_common_proto_rawDescData st))
  /\ file_google_bigtable_admin_v2_common_proto_rawDescOnce r.2 = true
  /\ file_google_bigtable_admin_v2_common_proto_rawDesc r.2
     = file_google_bigtable_admin_v2_common_proto_rawDesc st
  /\ File_google_bigtable_admin_v2_common_proto r.2
     = File_google_bigtable_admin_v2_common_proto st.
Proof.
  unfold file_google_bigtable_admin_v2_common_proto_rawDescGZIP.
  destruct st as [f r o d en ms gt di]. cbn.
  destruct o; cbn; auto.
Qed.

Abbreviation in_place := (@descriptor_in_place FileDescriptor EnumInfo MessageInfoData
                            CompressGZIP).

Lemma package_vars_in_place : in_place vars.
Proof. split; [discriminate | reflexivity]. Qed.

(** No call of the package panics while the descriptor is in place, every
    call leaves it in place, and what a descriptor call answers is the raw
    descriptor compressed once. *)
Lemma package_call_in_place (c : PackageCall) (st : State) :
  in_place st ->
  exists r st',
    package_call UnsafeEnabled CompressGZIP PkgPath Build c st = Some (r, st')
    /\ in_place st'
    /\ (forall b path, r = Some (b, path) -> b = CompressGZIP rawDesc_bytes).
Proof.
  intros [Hmsg Hdata]. destruct st as [f r o d en ms gt di]. cbn in Hmsg, Hdata.
  destruct c; cbn.
  - unfold init, file_google_bigtable_admin_v2_common_proto_init. cbn.
    destruct f as [fd|]; cbn.
    + eexists _, _. split; [reflexivity|]. split; [split; [discriminate | exact Hdata]|].
      discriminate.
    + destruct UnsafeEnabled; cbn.
      * eexists _, _. split; [reflexivity|].
        split; [split; [discriminate | exact Hdata]|]. discriminate.
      * destruct ms as [|mi rest]; [exfalso; apply Hmsg; reflexivity|]. cbn.
        eexists _, _. split; [reflexivity|].
        split; [split; [discriminate | exact Hdata]|]. discriminate.
  - unfold file_google_bigtable_admin_v2_common_proto_rawDescGZIP. cbn.
    destruct o; cbn; subst d; eexists _, _; (split; [reflexivity|]);
      (split; [split; [exact Hmsg | reflexivity]|]); intros b path [= <- _]; reflexivity.
  - unfold EnumDescriptor, file_google_bigtable_admin_v2_common_proto_rawDescGZIP. cbn.
    destruct o; cbn; subst d; eexists _, _; (split; [reflexivity|]);
      (split; [split; [exact Hmsg | reflexivity]|]); intros b path [= <- _]; reflexivity.
  - unfold Descriptor, file_google_bigtable_admin_v2_common_proto_rawDescGZIP. cbn.
    destruct o; cbn; subst d; eexists _, _; (split; [reflexivity|]);
      (split; [split; [exact Hmsg | reflexivity]|]); intros b path [= <- _]; reflexivity.
Qed.

Lemma package_calls_in_place (cs : list PackageCall) (st : State) :
  in_place st ->
  exists answers st',
    calls cs st = Some (answers, st')
    /\ in_place st'
    /\ Forall (fun b => b = CompressGZIP rawDesc_bytes) answers.
Proof.
  revert st. induction cs as [|c cs IH]; intros st Hst.
  - exists [], st. split; [reflexivity|]. split; [exact Hst | constructor].
  - destruct (package_call_in_place c st Hst) as (r & st1 & Hcall & Hst1 & Hr).
    destruct (IH st1 Hst1) as (answers & st2 & Hcalls & Hst2 & Hanswers).
    cbn [package_calls]. rewrite Hcall. cbn. rewrite Hcalls. cbn.
    eexists _, st2. split; [reflexivity|]. split; [exact Hst2|].
    destruct r as [[b path]|]; [|exact Hanswers].
    constructor; [eapply Hr; reflexivity | exact Hanswers].
Qed.

(** X5. Whatever calls of [init], [rawDescGZIP], [EnumDescriptor] and
    [Descriptor] the package has seen since its variables were initialised,
    in whatever order, none of them panics, each descriptor answer is the
    raw descriptor of the file compressed exactly once, and the next
    [Descriptor] and [EnumDescriptor] answer it with the index path [0]:
    [init] dropping [rawDesc] does not lose it. *)
Theorem descriptor_calls_serve_compressed_descriptor (cs : list PackageCall) :
  exists answers st,
    calls cs vars = Some (answers, st)
    /\ Forall (fun b => b = CompressGZIP rawDesc_bytes) answers
    /\ (Descriptor CompressGZIP st).1 = (CompressGZIP rawDesc_bytes, [0])
    /\ (EnumDescriptor CompressGZIP st).1 = (CompressGZIP rawDesc_bytes, [0]).
Proof.
  destruct (package_calls_in_place cs vars package_vars_in_place)
    as (answers & st & Hcalls & Hst & Hanswers).
  exists answers, st. split; [exact Hcalls|]. split; [exact Hanswers|].
  destruct Hst as [_ Hdata]. destruct st as [f r o d en ms gt di]. cbn in Hdata.
  unfold Descriptor, EnumDescriptor,
    file_google_bigtable_admin_v2_common_proto_rawDescGZIP.
  destruct o; cbn; subst d; auto.
Qed.

(** X6. [init] does its work once: a second run changes nothing, a run on
    an initialised package changes nothing, and the first run sets the file
    descriptor, releases the raw descriptor, the Go types and the
    dependency indexes, and leaves the bytes [rawDescGZIP] serves alone. *)
Theorem init_runs_once (st st1 : State) :
  init UnsafeEnabled PkgPath Build st = Some st1 ->
  init UnsafeEnabled PkgPath Build st1 = Some st1
  /\ File_google_bigtable_admin_v2_common_proto st1 <> None
  /\ file_google_bigtable_admin_v2_common_proto_rawDescData st1
     = file_google_bigtable_admin_v2_common_proto_rawDescData st
  /\ file_google_bigtable_admin_v2_common_proto_rawDescOnce st1
     = file_google_bigtable_admin_v2_common_proto_rawDescOnce st
  /\ (File_google_bigtable_admin_v2_common_proto st <> None -> st1 = st)
  /\ (File_google_bigtable_admin_v2_common_proto st = None ->
      file_google_bigtable_admin_v2_common_proto_rawDesc st1 = []
      /\ file_google_bigtable_admin_v2_common_proto_goTypes st1 = []
      /\ file_google_bigtable_admin_v2_common_proto_depIdxs st1 = []).
Proof.
  unfold init, file_google_bigtable_admin_v2_common_proto_init.
  destruct (File_google_bigtable_admin_v2_common_proto st) as [fd|] eqn:Hfile.
  - intros [= <-]. rewrite Hfile. repeat split; congruence.
  - destruct (if negb UnsafeEnabled then _ else _) as [msgTypes|]; cbn; [|discriminate].
    intros [= <-]. cbn. repeat split; congruence.
Qed.

(** X7. [Reset] on a message in memory zeroes it: afterwards the three
    getters answer 0, nil and nil, the size cache and the unknown fields are
    empty, the message info is attached again when the runtime is in unsafe
    mode, and no other message is touched; on a nil receiver [Reset]
    panics, unlike the getters. *)
Theorem Reset_zeroes_the_message (m : Memory) (l : positive) (msg : OperationProgress) :
  messages m !! l = Some msg ->
  exists m',
    Reset UnsafeEnabled m (Some l) = Some m'
    /\ GetProgressPercent (messages m') (Some l) = Some 0
    /\ GetStartTime (messages m') (Some l) = Some None
    /\ GetEndTime (messages m') (Some l) = Some None
    /\ internals m' !! l
       = Some {| state := if UnsafeEnabled then Some 0%nat else None;
                 sizeCache := 0; unknownFields := [] |}
    /\ (forall l', l' <> l ->
          messages m' !! l' = messages m !! l' /\ internals m' !! l' = internals m !! l')
    /\ Reset UnsafeEnabled m None = None.
Proof.
  intros Hl. unfold Reset. rewrite Hl.
  assert (Hzero : <[l:=zeroOperationProgress]> (messages m) !! l
                  = Some zeroOperationProgress)
    by apply (lookup_insert_eq (M := gmap positive)).
  assert (Hother : forall l', l' <> l ->
            <[l:=zeroOperationProgress]> (messages m) !! l' = messages m !! l').
  { intros l' Hne. apply (lookup_insert_ne (M := gmap positive)). congruence. }
  destruct UnsafeEnabled; eexists; (split; [reflexivity|]);
    unfold GetProgressPercent, GetStartTime, GetEndTime, StoreMessageInfo, internals_at;
    cbn; rewrite ?Hzero, ?lookup_insert_eq; cbn; rewrite ?lookup_insert_eq; cbn;
    repeat split; auto; rewrite ?lookup_insert_ne by congruence; auto.
Qed.

(** X8. [ProtoReflect] never changes the fields of a message and does not
    panic on nil; in unsafe mode it attaches the message info only if none
    is attached yet, so a second call answers the same and changes nothing,
    and the internals of other messages are not touched. *)
Theorem ProtoReflect_keeps_the_fields (m : Memory) (x : pointer) :
  x = None \/ is_Some (deref (messages m) x) ->
  exists r m',
    ProtoReflect UnsafeEnabled m x = Some (r, m')
    /\ messages m' = messages m
    /\ ProtoReflect UnsafeEnabled m' x = Some (r, m')
    /\ (forall l, x = Some l -> UnsafeEnabled = true ->
          LoadMessageInfo m' l = Some (default 0%nat (LoadMessageInfo m l)))
    /\ (forall l', x <> Some l' -> internals m' !! l' = internals m !! l').
Proof.
  intros Hx. unfold ProtoReflect.
  destruct x as [l|]; cbn.
  - destruct Hx as [Hx|[msg Hmsg]]; [discriminate|]. cbn in Hmsg.
    destruct UnsafeEnabled; cbn.
    + rewrite Hmsg.
      destruct (LoadMessageInfo m l) as [i|] eqn:Hload.
      * rewrite bool_decide_eq_false_2 by done.
        exists (MessageOfState l), m. rewrite Hmsg, Hload.
        rewrite bool_decide_eq_false_2 by done.
        repeat split; auto. intros l0 [= <-] _. rewrite Hload. reflexivity.
      * rewrite bool_decide_eq_true_2 by done.
        exists (MessageOfState l), (StoreMessageInfo m l 0).
        assert (Hstored : LoadMessageInfo (StoreMessageInfo m l 0) l = Some 0%nat).
        { unfold LoadMessageInfo, StoreMessageInfo, internals_at. cbn.
          rewrite lookup_insert_eq. reflexivity. }
        cbn [messages StoreMessageInfo]. rewrite Hmsg.
        change (LoadMessageInfo _ l) with (LoadMessageInfo (StoreMessageInfo m l 0) l).
        rewrite Hstored.
        rewrite bool_decide_eq_false_2 by done.
        repeat split; auto.
        -- intros l0 [= <-] _. rewrite Hload. exact Hstored.
        -- intros l' Hl'. cbn. rewrite lookup_insert_ne by congruence. reflexivity.
    + exists (MessageOfInfo 0 (Some l)), m. repeat split; auto. discriminate.
  - rewrite andb_false_r. exists (MessageOfInfo 0 None), m.
    repeat split; auto. discriminate.
Qed.

End Runtime.
Import fixtures.

Lemma init_runs_once_witness :
  init true admin_path plain_Build
    (default fresh_package (init true admin_path plain_Build fresh_package))
  = Some (default fresh_package (init true admin_path plain_Build fresh_package))
  /\ file_google_bigtable_admin_v2_common_proto_rawDesc
       (default fresh_package (init true admin_path plain_Build fresh_package)) = []
  /\ file_google_bigtable_admin_v2_common_proto_rawDescData
       (default fresh_package (init true admin_path plain_Build fresh_package))
     = rawDesc_bytes.
Proof.
  pose proof (init_runs_once true admin_path plain_Build fresh_package
                (default fresh_package (init true admin_path plain_Build fresh_package))
                eq_refl) as (Hagain & _ & Hdata & _ & _ & Hfirst).
  split; [exact Hagain|]. split; [apply Hfirst; reflexivity | exact Hdata].
Defined.

Lemma Reset_zeroes_the_message_witness :
  exists m',
    Reset true two_operations (Some 2%positive) = Some m'
    /\ GetProgressPercent (messages m') (Some 2%positive) = Some 0
    /\ GetStartTime (messages m') (Some 2%positive) = Some None
    /\ GetEndTime (messages m') (Some 2%positive) = Some None
    /\ internals m' !! 2%positive
       = Some {| state := Some 0%nat; sizeCache := 0; unknownFields := [] |}
    /\ (forall l', l' <> 2%positive ->
          messages m' !! l' = messages two_operations !! l'
          /\ internals m' !! l' = internals two_operations !! l')
    /\ Reset true two_operations None = None.
Proof.
  apply (Reset_zeroes_the_message true two_operations 2%positive
           {| ProgressPercent := 100; StartTime := Some 8%positive;
              EndTime := Some 9%positive |}).
  reflexivity.
Defined.

Lemma ProtoReflect_keeps_the_fields_witness :
  (exists r m',
      ProtoReflect true two_operations (Some 1%positive) = Some (r, m')
      /\ messages m' = messages two_operations
      /\ ProtoReflect true m' (Some 1%positive) = Some (r, m')
      /\ (forall l, Some 1%positive = Some l -> true = true ->
            LoadMessageInfo m' l = Some (default 0%nat (LoadMessageInfo two_operations l)))
      /\ (forall l', Some 1%positive <> Some l' ->
            internals m' !! l' = internals two_operations !! l'))
  /\ (exists r m',
      ProtoReflect true two_operations None = Some (r, m')
      /\ messages m' = messages two_operations
      /\ ProtoReflect true m' None = Some (r, m')
      /\ (forall l, None = Some l -> true = true ->
            LoadMessageInfo m' l = Some (default 0%nat (LoadMessageInfo two_operations l)))
      /\ (forall l', None <> Some l' ->
            internals m' !! l' = internals two_operations !! l')).
Proof.
  split.
  - apply (ProtoReflect_keeps_the_fields true two_operations (Some 1%positive)).
    right. eexists. reflexivity.
  - apply (ProtoReflect_keeps_the_fields true two_operations None).
    left. reflexivity.
Defined.

(** [init] and the descriptor calls, mixed. *)
Example descriptor_after_init_and_calls :
  fst <$> package_calls true framed admin_path plain_Build
            [CallDescriptor; CallInit; CallEnumDescriptor; CallInit; CallRawDescGZIP]
            fresh_package
  = Some [framed rawDesc_bytes; framed rawDesc_bytes; framed rawDesc_bytes].
Proof. reflexivity. Qed.

End admin_more.

Module kubevirt_more.

Import kubevirt spec kubevirt_proofs.

Section Deleting.

Context {W : Type} `{!Cluster W} `{!APIGroups}.



(** With the delete accepted, a wait is at least one poll and at most
    five. *)
Lemma wait_polls_between_one_and_five (resource : GroupVersionResource)
    (namespace name : string) (fuel : nat) (s : St W) (w1 : W) :
  (6 <= fuel)%nat ->
  dynamic_Delete resource namespace name (world s) = (None, w1) ->
  exists (n : nat) (r : option error),
    (1 <= n <= 5)%nat
    /\ deleteResource fuel namespace name resource true s
       = (Returned r,
          mkSt (world_after_polls resource namespace name n w1)
               (calls s ++ CallDelete resource namespace name
                  :: poll_calls resource namespace name n)).
Proof.
  intros Hfuel Hdel.
  rewrite (deleteResource_enters_loop _ _ _ _ _ _ Hdel).
  destruct fuel as [|fuel]; [lia|].
  rewrite loop_turn by lia. cbn [world calls].
  destruct (err_of (poll resource namespace name w1).1) as [e|] eqn:He.
  - destruct fuel as [|fuel]; [lia|]. rewrite loop_error_pending.
    exists 1%nat, None. split; [lia|]. rewrite <- app_assoc. reflexivity.
  - destruct (loop_bounded resource namespace name 4 fuel (0 + 1)
                (mkSt (poll resource namespace name w1).2
                   ((calls s ++ [CallDelete resource namespace name])
                      ++ [CallSleep (1 * Second); CallGet resource namespace name])))
      as (n & r & Hn & Hrun & _); [reflexivity | lia | lia |].
    exists (S n), r. split; [lia|]. rewrite Hrun. cbn [world calls].
    rewrite <- !app_assoc. reflexivity.
Qed.


(** What [deleteResource] does, as far as the calls go. *)
Lemma deleteResource_calls (resource : GroupVersionResource) (namespace name : string)
    (fuel : nat) (wait : bool) (s : St W) :
  (6 <= fuel)%nat ->
  exists (n : nat) (r : option error) (w' : W),
    (n <= 5)%nat
    /\ deleteResource fuel namespace name resource wait s
       = (Returned r,
          mkSt w' (calls s ++ CallDelete resource namespace name
                     :: poll_calls resource namespace name n)).
Proof.
  intros Hfuel.
  destruct (dynamic_Delete resource namespace name (world s)) as [[e|] w1] eqn:Hdel.
  - exists 0%nat, (Some e), w1. split; [lia|].
    apply deleteResource_without_wait; [exact Hdel | left; discriminate].
  - destruct wait.
    + destruct (wait_polls_between_one_and_five resource namespace name fuel s w1
                  Hfuel Hdel) as (n & r & Hn & Hrun).
      exists n, r, (world_after_polls resource namespace name n w1).
      split; [lia | exact Hrun].
    + exists 0%nat, None, w1. split; [lia|].
      apply deleteResource_without_wait; [exact Hdel | right; reflexivity].
Qed.

(** X10. Without [wait], [DeleteVirtualMachine], [DeleteDataVolume] and
    [DeleteSecret] each make the one delete call on their own resource kind
    and return what it returned, error or nil, with no sleep and no lookup,
    whatever the fuel. *)
Theorem Delete_wrappers_without_wait (namespace name : string) (fuel : nat)
    (s : St W) :
  DeleteVirtualMachine fuel namespace name false s
    = (Returned (dynamic_Delete vmRes namespace name (world s)).1,
       mkSt (dynamic_Delete vmRes namespace name (world s)).2
            (calls s ++ [CallDelete vmRes namespace name]))
  /\ DeleteDataVolume fuel namespace name false s
     = (Returned (dynamic_Delete dvRes namespace name (world s)).1,
        mkSt (dynamic_Delete dvRes namespace name (world s)).2
             (calls s ++ [CallDelete dvRes namespace name]))
  /\ DeleteSecret fuel namespace name false s
     = (Returned (dynamic_Delete secretRes namespace name (world s)).1,
        mkSt (dynamic_Delete secretRes namespace name (world s)).2
             (calls s ++ [CallDelete secretRes namespace name])).
Proof.
  repeat split;
    apply deleteResource_without_wait; [apply surjective_pairing | right; reflexivity
                                       | apply surjective_pairing | right; reflexivity
                                       | apply surjective_pairing | right; reflexivity].
Qed.

(** X11. The three delete wrappers touch nothing but the resource they are
    asked to delete: after the one delete call on their own kind
    ([virtualmachines], [datavolumes], [secrets]) every further call is a
    sleep or a lookup of that same resource, never a second delete and never
    a list. *)
Theorem Delete_wrappers_touch_their_resource_only (namespace name : string)
    (fuel : nat) (wait : bool) (s : St W) :
  (6 <= fuel)%nat ->
  (exists r w' new,
      DeleteVirtualMachine fuel namespace name wait s
      = (Returned r, mkSt w' (calls s ++ CallDelete vmRes namespace name :: new))
      /\ gvrResource vmRes = "virtualmachines"
      /\ Forall (fun c => concerns vmRes namespace name c
                          /\ c <> CallDelete vmRes namespace name) new)
  /\ (exists r w' new,
      DeleteDataVolume fuel namespace name wait s
      = (Returned r, mkSt w' (calls s ++ CallDelete dvRes namespace name :: new))
      /\ gvrResource dvRes = "datavolumes"
      /\ Forall (fun c => concerns dvRes namespace name c
                          /\ c <> CallDelete dvRes namespace name) new)
  /\ (exists r w' new,
      DeleteSecret fuel namespace name wait s
      = (Returned r, mkSt w' (calls s ++ CallDelete secretRes namespace name :: new))
      /\ gvrResource secretRes = "secrets"
      /\ Forall (fun c => concerns secretRes namespace name c
                          /\ c <> CallDelete secretRes namespace name) new).
Proof.
  intros Hfuel.
  assert (Hpolls : forall resource n,
            Forall (fun c => concerns resource namespace name c
                             /\ c <> CallDelete resource namespace name)
                   (poll_calls resource namespace name n)).
  { intros resource n. induction n as [|n IH]; [constructor|].
    change (poll_calls resource namespace name (S n))
      with (CallSleep (1 * Second) :: CallGet resource namespace name
              :: poll_calls resource namespace name n).
    repeat constructor; try discriminate. exact IH. }
  repeat split.
  - destruct (deleteResource_calls vmRes namespace name fuel wait s Hfuel)
      as (n & r & w' & _ & Hrun).
    exists r, w', (poll_calls vmRes namespace name n). auto.
  - destruct (deleteResource_calls dvRes namespace name fuel wait s Hfuel)
      as (n & r & w' & _ & Hrun).
    exists r, w', (poll_calls dvRes namespace name n). auto.
  - destruct (deleteResource_calls secretRes namespace name fuel wait s Hfuel)
      as (n & r & w' & _ & Hrun).
    exists r, w', (poll_calls secretRes namespace name n). auto.
Qed.

End Deleting.

Section Listing.

Context {W : Type} `{!Cluster W} `{!APIGroups}.

Lemma filter_sublist_of_impl {A} (P Q : A -> Prop)
    `{!forall x, Decision (P x)} `{!forall x, Decision (Q x)} (l : list A) :
  (forall x, P x -> Q x) -> filter P l `sublist_of` filter Q l.
Proof.
  intros HPQ. induction l as [|x l IH]; [constructor|].
  rewrite !filter_cons.
  destruct (decide (P x)) as [HP|HP].
  - rewrite decide_True by auto. constructor. exact IH.
  - destruct (decide (Q x)); [constructor|]; exact IH.
Qed.

Lemma label_any_match_mono (req req' labels : gmap string string) :
  req ⊆ req' -> label_any_match req labels -> label_any_match req' labels.
Proof.
  intros Hsub (k & v & Hk & Hl). exists k, v. split; [|exact Hl].
  exact (lookup_weaken req req' k v Hk Hsub).
Qed.

Lemma label_match_singleton (k v : string) (labels : gmap string string) :
  (label_any_match {[ k := v ]} labels <-> labels !! k = Some v)
  /\ (label_all_match {[ k := v ]} labels <-> labels !! k = Some v).
Proof.
  unfold label_any_match, label_all_match. split; split.
  - intros (k' & v' & Hk & Hl). apply lookup_singleton_Some in Hk as [<- <-]. exact Hl.
  - intros Hl. exists k, v. split; [apply lookup_singleton_eq | exact Hl].
  - intros Hall. apply Hall, lookup_singleton_eq.
  - intros Hl k' v' Hk. apply lookup_singleton_Some in Hk as [<- <-]. exact Hl.
Qed.

Lemma label_all_match_any (req labels : gmap string string) :
  req <> ∅ -> label_all_match req labels -> label_any_match req labels.
Proof.
  intros Hne Hall. destruct (map_choose req Hne) as (k & v & Hk).
  exists k, v. split; [exact Hk | apply Hall, Hk].
Qed.

(** X12. [listResource] invents nothing: the names it returns are a
    subsequence of the names of the listed resources, in their order, so
    they are no more than the resources listed. *)
Theorem listResource_names_are_listed_names (namespace : string)
    (requiredLabels : gmap string string) (resource : GroupVersionResource)
    (s : St W) (listed : UnstructuredList) (w1 : W) :
  dynamic_List resource namespace (world s) = (inl listed, w1) ->
  (listResource namespace requiredLabels resource s).1.1
    `sublist_of` (GetName <$> Items listed)
  /\ (length (listResource namespace requiredLabels resource s).1.1
      <= length (Items listed))%nat.
Proof.
  intros Hlist. rewrite (listResource_listed _ _ _ _ _ _ Hlist). cbn [fst].
  assert (Hsub : names_matching_any namespace requiredLabels (Items listed)
                 `sublist_of` (GetName <$> Items listed)).
  { unfold names_matching_any. apply fmap_sublist, sublist_filter. }
  split; [exact Hsub|].
  apply sublist_length in Hsub. rewrite length_fmap in Hsub. exact Hsub.
Qed.

(** X13. Asking for more labels returns more names: when the required
    labels grow, the names returned before are still returned, in order. *)
Theorem listResource_more_labels_more_names (namespace : string)
    (requiredLabels requiredLabels' : gmap string string)
    (resource : GroupVersionResource) (s : St W) (listed : UnstructuredList) (w1 : W) :
  dynamic_List resource namespace (world s) = (inl listed, w1) ->
  requiredLabels ⊆ requiredLabels' ->
  (listResource namespace requiredLabels resource s).1.1
    `sublist_of` (listResource namespace requiredLabels' resource s).1.1.
Proof.
  intros Hlist Hsub. rewrite !(listResource_listed _ _ _ _ _ _ Hlist). cbn [fst].
  unfold names_matching_any. apply fmap_sublist, filter_sublist_of_impl.
  intros d [Hns Hany]. split; [exact Hns|].
  eapply label_any_match_mono; eauto.
Qed.

(** X14. With exactly one required label the three list wrappers are a
    label selector: they return the names of the listed resources of the
    namespace that carry that label with that value. *)
Theorem list_names_single_label_is_a_selector (namespace k v : string)
    (s : St W) (listed : UnstructuredList) (w1 : W) :
  (dynamic_List vmRes namespace (world s) = (inl listed, w1) ->
   (ListVirtualMachineNames namespace {[ k := v ]} s).1
   = (names_matching_all namespace {[ k := v ]} (Items listed), None))
  /\ (dynamic_List dvRes namespace (world s) = (inl listed, w1) ->
      (ListDataVolumeNames namespace {[ k := v ]} s).1
      = (names_matching_all namespace {[ k := v ]} (Items listed), None))
  /\ (dynamic_List secretRes namespace (world s) = (inl listed, w1) ->
      (ListSecretNames namespace {[ k := v ]} s).1
      = (names_matching_all namespace {[ k := v ]} (Items listed), None)).
Proof.
  assert (Hsame : names_matching_any namespace {[ k := v ]} (Items listed)
                  = names_matching_all namespace {[ k := v ]} (Items listed)).
  { unfold names_matching_any, names_matching_all. f_equal.
    apply list_filter_iff. intros d.
    destruct (label_match_singleton k v (GetLabels d)) as [Hany Hall].
    rewrite Hany, Hall. reflexivity. }
  repeat split; intros Hlist;
    unfold ListVirtualMachineNames, ListDataVolumeNames, ListSecretNames;
    rewrite (listResource_listed _ _ _ _ _ _ Hlist); cbn [fst]; rewrite Hsame;
    reflexivity.
Qed.

(** X15. With at least one required label, every listed resource of the
    namespace that carries all of them is returned. *)
Theorem listResource_returns_every_full_match (namespace : string)
    (requiredLabels : gmap string string) (resource : GroupVersionResource)
    (s : St W) (listed : UnstructuredList) (w1 : W) :
  dynamic_List resource namespace (world s) = (inl listed, w1) ->
  requiredLabels <> ∅ ->
  names_matching_all namespace requiredLabels (Items listed)
    `sublist_of` (listResource namespace requiredLabels resource s).1.1.
Proof.
  intros Hlist Hne. rewrite (listResource_listed _ _ _ _ _ _ Hlist). cbn [fst].
  unfold names_matching_any, names_matching_all.
  apply fmap_sublist, filter_sublist_of_impl.
  intros d [Hns Hall]. split; [exact Hns|].
  apply label_all_match_any; assumption.
Qed.

End Listing.

Section Config.

Variable filepath_Join : list string -> string.

(** X16. The default file is fixed when the package is initialised:
    setting HOME to something else afterwards, or unsetting it, does not
    change what [LoadKubeConfigContent] returns. *)
Theorem LoadKubeConfigContent_ignores_later_HOME (os0 os : OS) (home : string) :
  LoadKubeConfigContent (package_init filepath_Join os0)
    {| environ := <["HOME" := home]> (environ os); files := files os |}
  = LoadKubeConfigContent (package_init filepath_Join os0) os
  /\ LoadKubeConfigContent (package_init filepath_Join os0)
       {| environ := delete "HOME" (environ os); files := files os |}
     = LoadKubeConfigContent (package_init filepath_Join os0) os.
Proof.
  unfold LoadKubeConfigContent, os_Getenv, ioutil_ReadFile.
  cbn [package_init kubeConfigEnvName kubeConfigDefaultFilename environ files].
  rewrite lookup_insert_ne by discriminate.
  rewrite lookup_delete_ne by discriminate. split; reflexivity.
Qed.

End Config.

Section Building.

Context {Config Clientset Dynamic : Type}.
Variable ClientConfig : Config + error.
Variable kubernetes_NewForConfig : Config -> Clientset + error.
Variable dynamic_NewForConfig : Config -> Dynamic + error.

(** X18. [NewClient] returns a client or an error, never both and never
    neither; a client it returns holds a kubernetes client and a dynamic
    client (NewClient ClientConfig kubernetes_NewForConfig dynamic_NewForConfig) from the same loaded configuration; an error it returns is
    that of the first step that failed among loading the configuration,
    building the kubernetes client and building the dynamic client. *)
Theorem NewClient_client_or_error :
  let built := NewClient ClientConfig kubernetes_NewForConfig dynamic_NewForConfig in
  (built.1 = None <-> built.2 <> None)
  /\ (forall c, built.1 = Some c ->
        exists cfg k d,
          ClientConfig = inl cfg
          /\ kubernetes_NewForConfig cfg = inl k
          /\ dynamic_NewForConfig cfg = inl d
          /\ kubernetesClient c = Some k /\ dynamicClient c = Some d)
  /\ (forall e, built.2 = Some e ->
        ClientConfig = inr e
        \/ (exists cfg, ClientConfig = inl cfg /\ kubernetes_NewForConfig cfg = inr e)
        \/ (exists cfg k, ClientConfig = inl cfg /\ kubernetes_NewForConfig cfg = inl k
                          /\ dynamic_NewForConfig cfg = inr e)).
Proof.
  cbv zeta. unfold NewClient.
  destruct ClientConfig as [cfg|e0]; cbn.
  2: { split; [split; [discriminate | reflexivity]|].
       split; [discriminate | intros e [= <-]; auto]. }
  destruct (kubernetes_NewForConfig cfg) as [k|e1] eqn:Hk; cbn.
  2: { split; [split; [discriminate | reflexivity]|].
       split; [discriminate | intros e [= <-]; right; left; eauto]. }
  destruct (dynamic_NewForConfig cfg) as [d|e2] eqn:Hd; cbn.
  2: { split; [split; [discriminate | reflexivity]|].
       split; [discriminate | intros e [= <-]; right; right; eauto]. }
  split; [split; [discriminate | congruence]|].
  split; [|discriminate].
  intros c [= <-]. exists cfg, k, d. auto.
Qed.

End Building.
Import fixtures.


Lemma Delete_wrappers_touch_their_resource_only_witness :
  (exists r w' new,
      DeleteVirtualMachine 6 "infra" "worker-0" true (start never_gone)
      = (Returned r, mkSt w' (calls (start never_gone)
                                ++ CallDelete vmRes "infra" "worker-0" :: new))
      /\ gvrResource vmRes = "virtualmachines"
      /\ Forall (fun c => concerns vmRes "infra" "worker-0" c
                          /\ c <> CallDelete vmRes "infra" "worker-0") new)
  /\ (exists r w' new,
      DeleteDataVolume 6 "infra" "worker-0" true (start never_gone)
      = (Returned r, mkSt w' (calls (start never_gone)
                                ++ CallDelete dvRes "infra" "worker-0" :: new))
      /\ gvrResource dvRes = "datavolumes"
      /\ Forall (fun c => concerns dvRes "infra" "worker-0" c
                          /\ c <> CallDelete dvRes "infra" "worker-0") new)
  /\ (exists r w' new,
      DeleteSecret 6 "infra" "worker-0" true (start never_gone)
      = (Returned r, mkSt w' (calls (start never_gone)
                                ++ CallDelete secretRes "infra" "worker-0" :: new))
      /\ gvrResource secretRes = "secrets"
      /\ Forall (fun c => concerns secretRes "infra" "worker-0" c
                          /\ c <> CallDelete secretRes "infra" "worker-0") new).
Proof.
  apply (Delete_wrappers_touch_their_resource_only "infra" "worker-0" 6 true
           (start never_gone)).
  lia.
Defined.

Lemma listResource_names_are_listed_names_witness :
  (listResource "infra" workers_of_c1 vm (start listing)).1.1
    `sublist_of` (GetName <$> listed_machines)
  /\ (length (listResource "infra" workers_of_c1 vm (start listing)).1.1
      <= length listed_machines)%nat.
Proof.
  apply (listResource_names_are_listed_names "infra" workers_of_c1 vm (start listing)
           {| Items := listed_machines |} listing).
  reflexivity.
Defined.

(** One label of the two. *)
Lemma of_c1_among_workers_of_c1 : of_c1 ⊆ workers_of_c1.
Proof.
  apply map_subseteq_spec. intros k v Hk. unfold of_c1 in Hk.
  apply lookup_singleton_Some in Hk as [<- <-]. reflexivity.
Defined.

Lemma listResource_more_labels_more_names_witness :
  (listResource "infra" of_c1 vm (start listing)).1.1
    `sublist_of` (listResource "infra" workers_of_c1 vm (start listing)).1.1.
Proof.
  apply (listResource_more_labels_more_names "infra" of_c1 workers_of_c1 vm
           (start listing) {| Items := listed_machines |} listing).
  - reflexivity.
  - exact of_c1_among_workers_of_c1.
Defined.

Lemma list_names_single_label_is_a_selector_witness :
  (ListVirtualMachineNames "infra" {[ "cluster" := "c1" ]} (start listing)).1
    = (names_matching_all "infra" {[ "cluster" := "c1" ]} listed_machines, None)
  /\ (ListDataVolumeNames "infra" {[ "cluster" := "c1" ]} (start listing)).1
     = (names_matching_all "infra" {[ "cluster" := "c1" ]} listed_machines, None)
  /\ (ListSecretNames "infra" {[ "cluster" := "c1" ]} (start listing)).1
     = (names_matching_all "infra" {[ "cluster" := "c1" ]} listed_machines, None).
Proof.
  pose proof (list_names_single_label_is_a_selector "infra" "cluster" "c1"
                (start listing) {| Items := listed_machines |} listing)
    as (Hvm & Hdv & Hsecret).
  split; [apply Hvm; reflexivity | split; [apply Hdv | apply Hsecret]; reflexivity].
Defined.

(** The machines of cluster [c1]. *)
Example single_label_listing :
  (ListVirtualMachineNames "infra" {[ "cluster" := "c1" ]} (start listing)).1
  = (["master-0"; "worker-0"], None).
Proof. vm_compute. reflexivity. Qed.

Lemma listResource_returns_every_full_match_witness :
  names_matching_all "infra" workers_of_c1 listed_machines
    `sublist_of` (listResource "infra" workers_of_c1 vm (start listing)).1.1.
Proof.
  apply (listResource_returns_every_full_match "infra" workers_of_c1 vm (start listing)
           {| Items := listed_machines |} listing).
  - reflexivity.
  - intros Hempty. apply (f_equal (fun m => m !! "role")) in Hempty.
    vm_compute in Hempty. discriminate Hempty.
Defined.

Lemma LoadKubeConfigContent_default_on_unix_witness :
  LoadKubeConfigContent (package_init filepath.Join without_kubeconfig) without_kubeconfig
  = ioutil_ReadFile without_kubeconfig
      (string_of_list_ascii
         (filepath.rooted_path [list_ascii_of_string "home"; list_ascii_of_string "core"])
       +:+ "/.kube/config").
Proof.
  apply (LoadKubeConfigContent_default_on_unix without_kubeconfig
           [list_ascii_of_string "home"; list_ascii_of_string "core"]).
  - discriminate.
  - repeat constructor; try discriminate;
      intros Hin; cbn in Hin;
      repeat (apply elem_of_cons in Hin as [Hin|Hin]; [discriminate Hin|]);
      inversion Hin.
  - reflexivity.
  - left. reflexivity.
Defined.

End kubevirt_more.
